(** * CloudCalculator: hourly VM activity aggregation

    A shallow embedding of [cloudcalculator.py].  The script loads a table of
    VM activity intervals, derives the analysis window from the smallest
    start time and the largest end time, walks the window hour by hour, and
    for every hour reports which hosts were active and how many billable
    cores they held.

    Conventions of the embedding:
    - a pandas [Timestamp] is its integer count of nanoseconds since the
      epoch ([Z]); [NaT], the minimum of an empty column, is [None];
    - a Python [int] is a [Z]; a Python [float] is an IEEE-754 binary64
      value, taken from the Standard Library's executable specification
      [SpecFloat] (precision 53, exponent bound 1024);
    - a Python [dict] is an association list kept in insertion order;
    - a raised exception is the left summand of a sum type;
    - [print] and the two CSV writers act on an explicit [World]. *)

From Stdlib Require Import ZArith List String Ascii Bool Lia DecimalString.
From Stdlib Require Import Floats.SpecFloat.
Import ListNotations.

Local Open Scope Z_scope.

(** ** Python numbers and exceptions *)

Module PyNum.

Definition prec : Z := 53.
Definition emax : Z := 1024.

Definition float : Type := spec_float.

(** The value [0.0], which is what the factory [float()] returns. *)
Definition float_zero : float := S754_zero false.

Inductive Exception : Type :=
| ValueError                 (* int(nan) *)
| OverflowError              (* int(inf), or an int too large for a float *)
| ReadError (msg : string)   (* whatever pandas.read_csv raised *)
| OutOfFuel.                 (* the embedding's loop bound was hit; see
                                [hours_loop_fuel]: it never is *)

Definition result (A : Type) : Type := (Exception + A)%type.

Definition ret {A : Type} (a : A) : result A := inr a.

Definition bind {A B : Type} (m : result A) (k : A -> result B) : result B :=
  match m with
  | inl e => inl e
  | inr a => k a
  end.

(** Conversion of an [int] to a [float], as [float + int] performs it on
    the int operand: correctly rounded, to nearest with ties to even. *)
Definition float_of_int (z : Z) : result float :=
  match binary_normalize prec emax z 0 false with
  | S754_infinity _ => inl OverflowError
  | f => inr f
  end.

Definition float_add (x y : float) : float := SFadd prec emax x y.

(** [int(f)] on a float: the integral part, the fraction discarded. *)
Definition int_of_float (f : float) : result Z :=
  match f with
  | S754_zero _ => inr 0
  | S754_finite s m e => inr (cond_Zopp s (Z.shiftl (Zpos m) e))
  | S754_infinity _ => inl OverflowError
  | S754_nan => inl ValueError
  end.

(** The two kinds of number a numeric column of the table can hold. *)
Inductive pyval : Type :=
| PyInt (z : Z)
| PyFloat (f : float).

(** The builtin [int(x)]. *)
Definition py_int (x : pyval) : result Z :=
  match x with
  | PyInt z => inr z
  | PyFloat f => int_of_float f
  end.

(** The operator [x + y]: integer addition on two ints; otherwise the int
    operand is converted and the floats are added. *)
Definition py_add (x y : pyval) : result pyval :=
  match x, y with
  | PyInt a, PyInt b => inr (PyInt (a + b))
  | PyInt a, PyFloat g =>
      bind (float_of_int a) (fun f => inr (PyFloat (float_add f g)))
  | PyFloat f, PyInt b =>
      bind (float_of_int b) (fun g => inr (PyFloat (float_add f g)))
  | PyFloat f, PyFloat g => inr (PyFloat (float_add f g))
  end.

(** The builtin [sum(xs)]: start from the int [0] and add the items from
    left to right.  (An interpreter that compensates float sums returns the
    same value whenever every partial sum is exact.) *)
Fixpoint py_sum_from (acc : pyval) (xs : list pyval) : result pyval :=
  match xs with
  | [] => inr acc
  | x :: xs' => bind (py_add acc x) (fun acc' => py_sum_from acc' xs')
  end.

Definition py_sum (xs : list pyval) : result pyval := py_sum_from (PyInt 0) xs.

(** [str(n)] for a non-negative count, and zero padding as [%02d]. *)
Definition str_of_Z (n : Z) : string := NilZero.string_of_int (Z.to_int n).

Definition zfill (width : nat) (s : string) : string :=
  String.concat "" (repeat "0"%string (width - String.length s)) ++ s.

End PyNum.

Import PyNum.

Notation "x <- m ;; k" := (bind m (fun x => k))
  (at level 61, m at next level, right associativity).

(** ** Timestamps and the calendar fields the report prints *)

Module Calendar.

(** [timedelta(hours=1)], in nanoseconds. *)
Definition one_hour : Z := 3600 * 1000000000.

Definition one_day : Z := 24 * one_hour.

(** [a < b] on timestamps, either of which may be [NaT]: any comparison
    with [NaT] is false. *)
Definition ts_ltb (a b : option Z) : bool :=
  match a, b with
  | Some x, Some y => x <? y
  | _, _ => false
  end.

(** Proleptic Gregorian date (year, month, day) of a day count since
    1970-01-01. *)
Definition civil_from_days (days : Z) : Z * Z * Z :=
  let z := days + 719468 in
  let era := z / 146097 in
  let doe := z - era * 146097 in
  let yoe := (doe - doe / 1460 + doe / 36524 - doe / 146096) / 365 in
  let doy := doe - (365 * yoe + yoe / 4 - yoe / 100) in
  let mp := (5 * doy + 2) / 153 in
  let d := doy - (153 * mp + 2) / 5 + 1 in
  let m := if mp <? 10 then mp + 3 else mp - 9 in
  let y := yoe + era * 400 + (if m <=? 2 then 1 else 0) in
  (y, m, d).

(** [t.day] and [t.hour]. *)
Definition day_of (t : Z) : Z := snd (civil_from_days (t / one_day)).

Definition hour_of (t : Z) : Z := (t / one_hour) mod 24.

(** [t.strftime('%Y-%m-%d %H:00:00 UTC')]: the minutes and seconds of the
    label are the literal text of the format. *)
Definition strftime_hour (t : Z) : string :=
  let '(y, m, d) := civil_from_days (t / one_day) in
  (zfill 4 (str_of_Z y) ++ "-" ++ zfill 2 (str_of_Z m) ++ "-"
   ++ zfill 2 (str_of_Z d) ++ " " ++ zfill 2 (str_of_Z (hour_of t))
   ++ ":00:00 UTC")%string.

End Calendar.

Import Calendar.

(** ** The table of activity records *)

(** One row of the table, after [pd.to_datetime] has converted the two
    time columns: both times are proper timestamps.  (A cell that does not
    convert raises before any hour is analysed; the script does not catch
    it, and it is outside this model.) *)
Record ActivityRecord : Type := mkRecord {
  hostName : string;
  startTime : Z;
  endTime : Z;
  hostBillableCores : pyval
}.

Definition DataFrame : Type := list ActivityRecord.

(** [Series.min()] and [Series.max()]: [NaT] on an empty column. *)
Definition series_min (xs : list Z) : option Z :=
  match xs with
  | [] => None
  | x :: rest => Some (fold_left Z.min rest x)
  end.

Definition series_max (xs : list Z) : option Z :=
  match xs with
  | [] => None
  | x :: rest => Some (fold_left Z.max rest x)
  end.

(** ** The result records *)

Record HostnameDetail : Type := mkDetail {
  hostname : string;
  detail_hostBillableCores : pyval
}.

Record HourResult : Type := mkHourResult {
  hour : string;
  day_of_month : Z;
  hour_of_day : Z;
  total_hostnames : Z;
  total_hostBillableCores : Z;
  hostnames : list HostnameDetail
}.

(** ** analyze_vm_activity, the part after loading *)

Module Aggregator.

(** The window: [month_start] and [month_end]. *)
Definition month_start (df : DataFrame) : option Z := series_min (map startTime df).

Definition month_end (df : DataFrame) : option Z := series_max (map endTime df).

(** The loop
    [while current_hour < month_end: month_hours.append(current_hour);
     current_hour += timedelta(hours=1)],
    with a bound on the number of iterations. *)
Fixpoint hours_loop (fuel : nat) (current_hour : option Z) (m_end : option Z)
  (month_hours : list Z) : result (list Z) :=
  if ts_ltb current_hour m_end then
    match fuel, current_hour with
    | S fuel', Some c =>
        hours_loop fuel' (Some (c + one_hour)) m_end (month_hours ++ [c])
    | _, _ => inl OutOfFuel
    end
  else inr month_hours.

(** A bound that the loop never reaches. *)
Definition hours_fuel (m_start m_end : option Z) : nat :=
  match m_start, m_end with
  | Some s, Some e => S (Z.to_nat ((e - s) / one_hour))
  | _, _ => O
  end.

Definition generate_month_hours (m_start m_end : option Z) : result (list Z) :=
  hours_loop (hours_fuel m_start m_end) m_start m_end [].

(** The row mask [(df['startTime'] < hour_end) & (df['endTime'] > hour_start)]. *)
Definition is_active (hour_start : Z) (r : ActivityRecord) : bool :=
  let hour_end := hour_start + one_hour in
  (startTime r <? hour_end) && (endTime r >? hour_start).

Definition active_records (df : DataFrame) (hour_start : Z) : DataFrame :=
  filter (is_active hour_start) df.

(** [drop_duplicates(subset=['hostName'])]: of the rows that share a host
    name the first stays, the order of the rest is kept. *)
Fixpoint drop_duplicates_seen (seen : list string) (rows : DataFrame) : DataFrame :=
  match rows with
  | [] => []
  | r :: rest =>
      if existsb (String.eqb (hostName r)) seen
      then drop_duplicates_seen seen rest
      else r :: drop_duplicates_seen (hostName r :: seen) rest
  end.

Definition drop_duplicates (rows : DataFrame) : DataFrame :=
  drop_duplicates_seen [] rows.

(** [activehosts], a [defaultdict(float)]: keys in insertion order. *)
Definition Dict : Type := list (string * pyval).

Fixpoint dict_get (d : Dict) (k : string) : option pyval :=
  match d with
  | [] => None
  | (k', v) :: rest => if String.eqb k' k then Some v else dict_get rest k
  end.

Fixpoint dict_set (d : Dict) (k : string) (v : pyval) : Dict :=
  match d with
  | [] => [(k, v)]
  | (k', v') :: rest =>
      if String.eqb k' k then (k', v) :: rest else (k', v') :: dict_set rest k v
  end.

(** [activehosts[k] += n]: a missing key is first bound to [float()]. *)
Definition dict_iadd (d : Dict) (k : string) (n : Z) : result Dict :=
  let current :=
    match dict_get d k with
    | Some v => v
    | None => PyFloat float_zero
    end in
  v <- py_add current (PyInt n) ;;
  ret (dict_set d k v).

(** The loop over [active_records.iterrows()]. *)
Fixpoint accumulate (activehosts : Dict) (rows : DataFrame) : result Dict :=
  match rows with
  | [] => ret activehosts
  | record :: rest =>
      let hostname := hostName record in
      cores <- py_int (hostBillableCores record) ;;
      activehosts' <- dict_iadd activehosts hostname cores ;;
      accumulate activehosts' rest
  end.

(** The body of [for hour_start in month_hours]. *)
Definition analyze_hour (df : DataFrame) (hour_start : Z) : result HourResult :=
  let active := drop_duplicates (active_records df hour_start) in
  activehosts <- accumulate [] active ;;
  total <- py_sum (map snd activehosts) ;;
  total_cores <- py_int total ;;
  ret {| hour := strftime_hour hour_start;
         day_of_month := day_of hour_start;
         hour_of_day := hour_of hour_start;
         total_hostnames := Z.of_nat (List.length activehosts);
         total_hostBillableCores := total_cores;
         hostnames := map (fun kv => mkDetail (fst kv) (snd kv)) activehosts |}.

Fixpoint analyze_hours (df : DataFrame) (month_hours : list Z) : result (list HourResult) :=
  match month_hours with
  | [] => ret []
  | hour_start :: rest =>
      hour_result <- analyze_hour df hour_start ;;
      results <- analyze_hours df rest ;;
      ret (hour_result :: results)
  end.

End Aggregator.

Import Aggregator.

(** ** The report writers and the script *)

Module Script.

Record SummaryRow : Type := mkSummaryRow {
  s_hour : string;
  s_day_of_month : Z;
  s_hour_of_day : Z;
  s_total_hosts : Z;
  s_total_hostBillableCores : Z
}.

Record DetailedRow : Type := mkDetailedRow {
  d_hour : string;
  d_day_of_month : Z;
  d_hour_of_day : Z;
  d_hostname : string;
  d_hostBillableCores : pyval
}.

(** What [DataFrame(rows).to_csv(path, index=False)] leaves on disk: the
    data rows, in order (the header line is not modelled). *)
Inductive CsvFile : Type :=
| SummaryCsv (rows : list SummaryRow)
| DetailedCsv (rows : list DetailedRow).

(** The console and the files written so far, oldest first. *)
Record World : Type := mkWorld {
  console : list string;
  files : list (string * CsvFile)
}.

Definition empty_world : World := mkWorld [] [].

Definition print (w : World) (line : string) : World :=
  mkWorld (console w ++ [line]) (files w).

(** A completed call of [to_csv]: the file is recorded as written.  A call
    that fails on the disk, and the exception it would raise, are outside
    the model. *)
Definition to_csv (w : World) (path : string) (f : CsvFile) : World :=
  mkWorld (console w) (files w ++ [(path, f)]).

Definition summary_rows (results : list HourResult) : list SummaryRow :=
  map (fun hour_data =>
         mkSummaryRow (hour hour_data) (day_of_month hour_data)
           (hour_of_day hour_data) (total_hostnames hour_data)
           (total_hostBillableCores hour_data))
      results.

Definition save_summary_csv (results : list HourResult) (inputfile : string)
  (w : World) : World :=
  let output_file := (inputfile ++ "_summary.csv")%string in
  let w := to_csv w output_file (SummaryCsv (summary_rows results)) in
  print w ("Summary results saved to: " ++ output_file).

Definition detailed_rows (results : list HourResult) : list DetailedRow :=
  flat_map (fun hour_data =>
              map (fun hostname_data =>
                     mkDetailedRow (hour hour_data) (day_of_month hour_data)
                       (hour_of_day hour_data) (hostname hostname_data)
                       (detail_hostBillableCores hostname_data))
                  (hostnames hour_data))
           results.

Definition save_detailed_csv (results : list HourResult) (inputfile : string)
  (w : World) : World :=
  let output_file := (inputfile ++ "_detailed.csv")%string in
  let w := to_csv w output_file (DetailedCsv (detailed_rows results)) in
  print w ("Detailed results saved to: " ++ output_file).

(** [str(e)] of a caught exception. *)
Definition exception_message (e : Exception) : string :=
  match e with
  | ReadError msg => msg
  | ValueError => "ValueError"
  | OverflowError => "OverflowError"
  | OutOfFuel => "OutOfFuel"
  end.

Definition len_str {A : Type} (l : list A) : string :=
  str_of_Z (Z.of_nat (List.length l)).

Definition newline : string := String (ascii_of_nat 10) "".

Inductive Separator : Type := SepTab | SepSpace | SepComma.

Section WithReader.

(** [pandas.read_csv] on a path with one of the three separator settings:
    the table read (shown with its time columns as [pd.to_datetime] makes
    them), or the exception raised. *)
Variable read_csv : string -> Separator -> result DataFrame.

(** The nested [try] blocks: tab, then space, then comma; the exception of
    the last attempt is the one that reaches the outer handler. *)
Definition load (inputfile : string) : result DataFrame :=
  match read_csv inputfile SepTab with
  | inr df => inr df
  | inl _ =>
      match read_csv inputfile SepSpace with
      | inr df => inr df
      | inl _ => read_csv inputfile SepComma
      end
  end.

Definition analyze_vm_activity (inputfile : string) (w : World)
  : World * result (list HourResult) :=
  match load inputfile with
  | inl e => (print w ("Error reading file: " ++ exception_message e), inr [])
  | inr df =>
      let w := print w ("Loaded " ++ len_str df ++ " records from dataset") in
      let m_start := month_start df in
      let m_end := month_end df in
      let w := print w ("Found " ++ len_str df ++ " records in this month") in
      match generate_month_hours m_start m_end with
      | inl e => (w, inl e)
      | inr month_hours =>
          let w := print w ("Analyzing " ++ len_str month_hours ++ " hours") in
          match analyze_hours df month_hours with
          | inl e => (w, inl e)
          | inr results =>
              let w := print w (newline ++ "Analysis complete.") in
              let w := save_detailed_csv results inputfile w in
              let w := save_summary_csv results inputfile w in
              (w, inr results)
          end
      end
  end.

(** The [__main__] block. *)
Definition main : World * result (list HourResult) :=
  let inputfile := "./data.tsv"%string in
  let w := print empty_world "Starting VM activity analysis" in
  analyze_vm_activity inputfile w.

End WithReader.

End Script.

Import Script.

(** What [analyze_vm_activity] computes once the table is loaded (see
    [analyze_vm_activity_loaded]): the hour results, or the exception that
    ends the run. *)
Definition analyze (df : DataFrame) : result (list HourResult) :=
  month_hours <- generate_month_hours (month_start df) (month_end df) ;;
  analyze_hours df month_hours.

(** ** Sample data *)

Module Sample.

(** 2024-01-01T00:00:00Z. *)
Definition jan1 : Z := 1704067200 * 1000000000.

Definition minutes (n : Z) : Z := n * 60 * 1000000000.

(** The two rows of the end-to-end scenario: h1 from 00:30 to 02:15 with 4
    cores, h2 from 01:00 to 01:30 with 2 cores. *)
Definition scenario : DataFrame :=
  [ mkRecord "h1" (jan1 + minutes 30) (jan1 + minutes 135) (PyInt 4);
    mkRecord "h2" (jan1 + minutes 60) (jan1 + minutes 90) (PyInt 2) ].

(** The floats 4.0, 2.0, 3.0 and 4.5. *)
Definition f4 : float := S754_finite false 4503599627370496 (-50).
Definition f2 : float := S754_finite false 4503599627370496 (-51).
Definition f3 : float := S754_finite false 6755399441055744 (-51).
Definition f4_5 : float := S754_finite false 5066549580791808 (-50).

(** Two rows of one host that share the first hour, and a third host whose
    core count is the float 4.5. *)
Definition h_first : ActivityRecord := mkRecord "h" 0 (2 * one_hour) (PyInt 3).
Definition h_second : ActivityRecord := mkRecord "h" 0 one_hour (PyInt 5).
Definition g_row : ActivityRecord := mkRecord "g" 0 one_hour (PyFloat f4_5).

Definition duplicates : DataFrame := [h_first; h_second; g_row].

Definition duplicates_first_hour : HourResult :=
  {| hour := "1970-01-01 00:00:00 UTC";
     day_of_month := 1;
     hour_of_day := 0;
     total_hostnames := 2;
     total_hostBillableCores := 7;
     hostnames := [mkDetail "h" (PyFloat f3); mkDetail "g" (PyFloat f4)] |}.


(** A reader that fails under every separator, and one that finds a table
    with a header and no rows. *)
Definition unreadable (_ : string) (sep : Separator) : result DataFrame :=
  match sep with
  | SepTab => inl (ReadError "tab")
  | SepSpace => inl (ReadError "space")
  | SepComma => inl (ReadError "No columns to parse from file")
  end.

Definition header_only (_ : string) (_ : Separator) : result DataFrame := inr [].

(** The hour results of [scenario]. *)
Definition scenario_hours : list HourResult :=
  [mkHourResult "2024-01-01 00:00:00 UTC" 1 0 2 6
     [mkDetail "h1" (PyFloat f4); mkDetail "h2" (PyFloat f2)];
   mkHourResult "2024-01-01 01:00:00 UTC" 1 1 1 4
     [mkDetail "h1" (PyFloat f4)]].

(** Two hosts with an idle hour between them: h1 in the first hour, h2 in
    the third. *)
Definition gapped : DataFrame :=
  [ mkRecord "h1" 0 one_hour (PyInt 4);
    mkRecord "h2" (2 * one_hour) (3 * one_hour) (PyInt 2) ].

(** A record of no duration in the middle of the first hour, after a
    record that spans two hours. *)
Definition instant : ActivityRecord := mkRecord "i" (minutes 30) (minutes 30) (PyInt 1).

Definition with_instant : DataFrame :=
  [mkRecord "h" 0 (2 * one_hour) (PyInt 3); instant].

(** A row of host h whose core count is not a number, and a reader that
    finds a table of that row alone. *)
Definition nan_row : ActivityRecord := mkRecord "h" 0 one_hour (PyFloat S754_nan).

Definition nan_only (_ : string) (_ : Separator) : result DataFrame := inr [nan_row].

(** The hour results of [gapped]: the second hour is idle. *)
Definition gapped_hours : list HourResult :=
  [mkHourResult "1970-01-01 00:00:00 UTC" 1 0 1 4 [mkDetail "h1" (PyFloat f4)];
   mkHourResult "1970-01-01 01:00:00 UTC" 1 1 0 0 [];
   mkHourResult "1970-01-01 02:00:00 UTC" 1 2 1 2 [mkDetail "h2" (PyFloat f2)]].

(** One row that ends an hour before it starts: from 02:00 to 01:00. *)
Definition inverted : DataFrame :=
  [mkRecord "h" (2 * one_hour) one_hour (PyInt 1)].

End Sample.

(** * Vocabulary of the statements *)

Module Spec.

(** The number of hour steps from [s] that start before [e]: the quotient
    of [e - s] by one hour, rounded up. *)
Definition bucket_count (s e : Z) : nat :=
  Z.to_nat ((e - s + one_hour - 1) / one_hour).

(** The start of the bucket number [i] of a window that starts at [s]. *)
Definition nth_bucket (s : Z) (i : nat) : Z := s + Z.of_nat i * one_hour.

(** [m] is the least start time of the table. *)
Definition is_min_start (df : DataFrame) (m : Z) : Prop :=
  (exists r, In r df /\ startTime r = m) /\ (forall r, In r df -> m <= startTime r).

(** [m] is the greatest end time of the table. *)
Definition is_max_end (df : DataFrame) (m : Z) : Prop :=
  (exists r, In r df /\ endTime r = m) /\ (forall r, In r df -> endTime r <= m).

(** [f] is the integer [z], exactly.  The value of a finite float is
    [(-1)^s * m * 2^e]; both sides of the equation are scaled by [2^1074],
    the inverse of the least positive float, which makes it an equation
    between integers.  The zero meant is [+0.0]. *)
Definition represents (f : float) (z : Z) : Prop :=
  match f with
  | S754_zero s => s = false /\ z = 0
  | S754_finite s m e =>
      -1074 <= e /\ cond_Zopp s (Zpos m) * 2 ^ (e + 1074) = z * 2 ^ 1074
  | _ => False
  end.

(** [t] is the value of the table cell [c] with its fraction discarded:
    the integer of the same sign whose magnitude is the integral part of
    the magnitude of [c]. *)
Definition truncation (c : pyval) (t : Z) : Prop :=
  match c with
  | PyInt z => t = z
  | PyFloat (S754_zero _) => t = 0
  | PyFloat (S754_finite s m e) =>
      (if s then t <= 0 else 0 <= t)
      /\ Z.abs t * 2 ^ Z.max 0 (- e) <= Zpos m * 2 ^ (e + Z.max 0 (- e))
         < (Z.abs t + 1) * 2 ^ Z.max 0 (- e)
  | PyFloat _ => False
  end.

(** The first row of [rows] whose host name is [h]. *)
Definition first_with_host (h : string) (rows : DataFrame) : option ActivityRecord :=
  find (fun r => String.eqb (hostName r) h) rows.

(** What one row adds to an empty slot of [activehosts]:
    [0.0 + int(record['hostBillableCores'])] under the row's host name. *)
Definition cores_entry (r : ActivityRecord) : result (string * pyval) :=
  t <- py_int (hostBillableCores r) ;;
  v <- py_add (PyFloat float_zero) (PyInt t) ;;
  ret (hostName r, v).

Fixpoint mapM {A B : Type} (f : A -> result B) (l : list A) : result (list B) :=
  match l with
  | [] => ret []
  | a :: l' => b <- f a ;; bs <- mapM f l' ;; ret (b :: bs)
  end.

Definition Zsum (l : list Z) : Z := fold_right Z.add 0 l.

(** [isinstance(v, int)]. *)
Definition is_int (v : pyval) : bool :=
  match v with
  | PyInt _ => true
  | PyFloat _ => false
  end.

(** The largest magnitude up to which every integer is a float. *)
Definition exact_bound : Z := 2 ^ 53.

End Spec.

Import Spec.

(** * Properties *)

(** ** The hour loop *)

Lemma one_hour_pos : 0 < one_hour.
Proof. reflexivity. Qed.

Lemma bucket_count_done (c e : Z) : e <= c -> bucket_count c e = O.
Proof.
  intros Hle. unfold bucket_count.
  pose proof one_hour_pos as Hh.
  assert ((e - c + one_hour - 1) / one_hour <= 0).
  { assert ((e - c + one_hour - 1) / one_hour < 1); [|lia].
    apply Z.div_lt_upper_bound; lia. }
  lia.
Qed.

Lemma bucket_count_step (c e : Z) :
  c < e -> bucket_count c e = S (bucket_count (c + one_hour) e).
Proof.
  intros Hlt. unfold bucket_count.
  pose proof one_hour_pos as Hh.
  replace (e - c + one_hour - 1)
    with ((e - (c + one_hour) + one_hour - 1) + 1 * one_hour) by lia.
  rewrite Z.div_add by lia.
  assert (0 <= (e - (c + one_hour) + one_hour - 1) / one_hour).
  { apply Z.div_pos; lia. }
  rewrite Z2Nat.inj_add by lia. simpl. lia.
Qed.

Lemma nth_bucket_shift (c : Z) (i : nat) :
  nth_bucket (c + one_hour) i = nth_bucket c (S i).
Proof. unfold nth_bucket. lia. Qed.

Lemma hours_loop_fuel (fuel : nat) :
  forall (c e : Z) (acc : list Z),
    (bucket_count c e <= fuel)%nat ->
    hours_loop fuel (Some c) (Some e) acc
    = inr (acc ++ map (nth_bucket c) (seq 0 (bucket_count c e))).
Proof.
  induction fuel as [|fuel IH]; intros c e acc Hfuel.
  - destruct (Z.ltb_spec c e) as [Hlt|Hge].
    + rewrite (bucket_count_step c e Hlt) in Hfuel. lia.
    + simpl. unfold ts_ltb. destruct (Z.ltb_spec c e); [lia|].
      rewrite bucket_count_done by lia. simpl. now rewrite app_nil_r.
  - simpl. unfold ts_ltb. destruct (Z.ltb_spec c e) as [Hlt|Hge].
    + rewrite (bucket_count_step c e Hlt) in Hfuel |- *.
      rewrite IH by lia. f_equal. rewrite <- app_assoc. f_equal.
      simpl. f_equal.
      * unfold nth_bucket. lia.
      * rewrite <- seq_shift, map_map.
        apply map_ext. intros i. apply nth_bucket_shift.
    + rewrite bucket_count_done by lia. simpl. now rewrite app_nil_r.
Qed.

Lemma bucket_count_le_fuel (s e : Z) :
  (bucket_count s e <= hours_fuel (Some s) (Some e))%nat.
Proof.
  unfold bucket_count, hours_fuel.
  pose proof one_hour_pos as Hh.
  destruct (Z.le_gt_cases e s) as [Hle|Hgt].
  - assert ((e - s + one_hour - 1) / one_hour <= 0).
    { assert ((e - s + one_hour - 1) / one_hour < 1); [|lia].
      apply Z.div_lt_upper_bound; lia. }
    lia.
  - assert ((e - s + one_hour - 1) / one_hour <= (e - s) / one_hour + 1).
    { rewrite <- (Z.div_add (e - s) 1 one_hour) by lia.
      apply Z.div_le_mono; lia. }
    assert (0 <= (e - s) / one_hour) by (apply Z.div_pos; lia).
    lia.
Qed.

Lemma generate_month_hours_eq (s e : Z) :
  generate_month_hours (Some s) (Some e)
  = inr (map (nth_bucket s) (seq 0 (bucket_count s e))).
Proof.
  unfold generate_month_hours.
  now rewrite hours_loop_fuel by apply bucket_count_le_fuel.
Qed.

Lemma generate_month_hours_NaT (m_end : option Z) :
  generate_month_hours None m_end = inr [].
Proof. reflexivity. Qed.

(** The hour loop always returns: the bound of the embedding is never hit. *)
Lemma generate_month_hours_total (m_start m_end : option Z) :
  exists month_hours, generate_month_hours m_start m_end = inr month_hours.
Proof.
  destruct m_start as [s|]; [|eexists; apply generate_month_hours_NaT].
  destruct m_end as [e|]; [eexists; apply generate_month_hours_eq|].
  exists []. reflexivity.
Qed.

(** ** The analysis window *)

Lemma fold_left_min_spec (l : list Z) :
  forall x, In (fold_left Z.min l x) (x :: l)
            /\ (forall y, In y (x :: l) -> fold_left Z.min l x <= y).
Proof.
  induction l as [|a l IH]; intros x; simpl.
  - split; [now left|]. intros y [->|[]]. lia.
  - destruct (IH (Z.min x a)) as [Hin Hle]. split.
    + destruct Hin as [Heq|Hin]; [|now right; right].
      rewrite <- Heq. destruct (Z.min_spec x a) as [[_ ->]|[_ ->]]; auto.
    + intros y Hy.
      assert (fold_left Z.min l (Z.min x a) <= Z.min x a) by (apply Hle; now left).
      destruct Hy as [->|[->|Hy]]; [lia|lia|]. apply Hle. now right.
Qed.

Lemma fold_left_max_spec (l : list Z) :
  forall x, In (fold_left Z.max l x) (x :: l)
            /\ (forall y, In y (x :: l) -> y <= fold_left Z.max l x).
Proof.
  induction l as [|a l IH]; intros x; simpl.
  - split; [now left|]. intros y [->|[]]. lia.
  - destruct (IH (Z.max x a)) as [Hin Hle]. split.
    + destruct Hin as [Heq|Hin]; [|now right; right].
      rewrite <- Heq. destruct (Z.max_spec x a) as [[_ ->]|[_ ->]]; auto.
    + intros y Hy.
      assert (Z.max x a <= fold_left Z.max l (Z.max x a)) by (apply Hle; now left).
      destruct Hy as [->|[->|Hy]]; [lia|lia|]. apply Hle. now right.
Qed.

Lemma month_start_spec (df : DataFrame) :
  df <> [] -> exists m, month_start df = Some m /\ is_min_start df m.
Proof.
  destruct df as [|r0 df]; [congruence|]. intros _.
  unfold month_start. simpl.
  destruct (fold_left_min_spec (map startTime df) (startTime r0)) as [Hin Hle].
  eexists. split; [reflexivity|]. split.
  - change (startTime r0 :: map startTime df) with (map startTime (r0 :: df)) in Hin.
    apply in_map_iff in Hin. destruct Hin as [r [Heq Hr]]. now exists r.
  - intros r Hr. apply Hle.
    change (startTime r0 :: map startTime df) with (map startTime (r0 :: df)).
    now apply in_map.
Qed.

Lemma month_end_spec (df : DataFrame) :
  df <> [] -> exists m, month_end df = Some m /\ is_max_end df m.
Proof.
  destruct df as [|r0 df]; [congruence|]. intros _.
  unfold month_end. simpl.
  destruct (fold_left_max_spec (map endTime df) (endTime r0)) as [Hin Hle].
  eexists. split; [reflexivity|]. split.
  - change (endTime r0 :: map endTime df) with (map endTime (r0 :: df)) in Hin.
    apply in_map_iff in Hin. destruct Hin as [r [Heq Hr]]. now exists r.
  - intros r Hr. apply Hle.
    change (endTime r0 :: map endTime df) with (map endTime (r0 :: df)).
    now apply in_map.
Qed.

Lemma nth_bucket_in_window (s e : Z) (i : nat) :
  (i < bucket_count s e)%nat -> s <= nth_bucket s i < e.
Proof.
  revert s. induction i as [|i IH]; intros s Hi.
  - unfold nth_bucket. destruct (Z.lt_ge_cases s e) as [Hlt|Hge]; [lia|].
    rewrite bucket_count_done in Hi by lia. lia.
  - destruct (Z.lt_ge_cases s e) as [Hlt|Hge].
    + rewrite (bucket_count_step s e Hlt) in Hi.
      rewrite <- nth_bucket_shift.
      pose proof one_hour_pos. specialize (IH (s + one_hour)). lia.
    + rewrite bucket_count_done in Hi by lia. lia.
Qed.

Lemma bucket_count_iff (s e : Z) (i : nat) :
  (i < bucket_count s e)%nat <-> nth_bucket s i < e.
Proof.
  split; [apply nth_bucket_in_window|].
  revert s; induction i as [|i IH]; intros s Hlt.
  - unfold nth_bucket in Hlt.
    rewrite (bucket_count_step s e) by lia. lia.
  - pose proof one_hour_pos.
    assert (s < e) by (unfold nth_bucket in Hlt; lia).
    rewrite (bucket_count_step s e) by lia.
    rewrite <- nth_bucket_shift in Hlt. specialize (IH _ Hlt). lia.
Qed.

(** Written with the quotient and the remainder of the window's width. *)
Lemma bucket_count_floor (s e : Z) :
  s <= e ->
  bucket_count s e
  = if (e - s) mod one_hour =? 0
    then Z.to_nat ((e - s) / one_hour)
    else S (Z.to_nat ((e - s) / one_hour)).
Proof.
  intros Hle. unfold bucket_count.
  pose proof one_hour_pos as Hh.
  pose proof (Z.div_mod (e - s) one_hour ltac:(lia)) as Hdm.
  pose proof (Z.mod_pos_bound (e - s) one_hour Hh) as Hm.
  assert (0 <= (e - s) / one_hour) by (apply Z.div_pos; lia).
  set (q := (e - s) / one_hour) in *. set (r := (e - s) mod one_hour) in *.
  destruct (Z.eqb_spec r 0) as [Hr|Hr].
  - f_equal. symmetry. apply Z.div_unique with (r := one_hour - 1); lia.
  - rewrite <- Z2Nat.inj_succ by lia. f_equal. symmetry.
    apply Z.div_unique with (r := r - 1); lia.
Qed.

Lemma nth_error_buckets (s : Z) (n i : nat) (h : Z) :
  nth_error (map (nth_bucket s) (seq 0 n)) i = Some h ->
  (i < n)%nat /\ h = nth_bucket s i.
Proof.
  rewrite nth_error_map, nth_error_seq.
  destruct (Nat.ltb_spec i n) as [Hlt|Hge]; simpl; [|discriminate].
  intros [= <-]. now split.
Qed.

Lemma is_active_iff (hour_start : Z) (r : ActivityRecord) :
  is_active hour_start r = true
  <-> startTime r < hour_start + one_hour /\ endTime r > hour_start.
Proof.
  unfold is_active. rewrite andb_true_iff, Z.ltb_lt, Z.gtb_gt. tauto.
Qed.

Lemma active_records_iff (df : DataFrame) (hour_start : Z) (r : ActivityRecord) :
  In r (active_records df hour_start)
  <-> In r df /\ startTime r < hour_start + one_hour /\ endTime r > hour_start.
Proof. unfold active_records. rewrite filter_In, is_active_iff. tauto. Qed.

(** C1. A record is selected as active in the bucket that starts at
    [hour_start] exactly when it starts before the bucket's end and ends
    after the bucket's start; a record that ends at the bucket's start, or
    starts at the bucket's end, is not selected. *)
Theorem active_records_overlap (df : DataFrame) (hour_start : Z) (r : ActivityRecord) :
  (In r (active_records df hour_start)
   <-> In r df /\ startTime r < hour_start + one_hour /\ endTime r > hour_start)
  /\ (endTime r = hour_start -> ~ In r (active_records df hour_start))
  /\ (startTime r = hour_start + one_hour -> ~ In r (active_records df hour_start)).
Proof.
  split; [apply active_records_iff|].
  split; intros Heq Hin; apply active_records_iff in Hin; lia.
Qed.

(** C3. On a table that is not empty, [month_start] is the least start
    time, [month_end] is the greatest end time, the hour loop returns, and
    every hour it produces starts in [[month_start, month_end)]. *)
Theorem window_bounds (df : DataFrame) :
  df <> [] ->
  exists m_start m_end month_hours,
    month_start df = Some m_start /\ is_min_start df m_start
    /\ month_end df = Some m_end /\ is_max_end df m_end
    /\ generate_month_hours (month_start df) (month_end df) = inr month_hours
    /\ Forall (fun hour_start => m_start <= hour_start < m_end) month_hours.
Proof.
  intros Hne.
  destruct (month_start_spec df Hne) as [s [Hs Hmin]].
  destruct (month_end_spec df Hne) as [e [He Hmax]].
  exists s, e, (map (nth_bucket s) (seq 0 (bucket_count s e))).
  rewrite Hs, He. repeat split; try apply Hmin; try apply Hmax.
  - apply generate_month_hours_eq.
  - apply Forall_forall. intros h Hin.
    apply in_map_iff in Hin. destruct Hin as [i [<- Hi]].
    apply in_seq in Hi. apply nth_bucket_in_window. lia.
Qed.

Lemma window_bounds_witness :
  exists m_start m_end month_hours,
    month_start Sample.scenario = Some m_start
    /\ is_min_start Sample.scenario m_start
    /\ month_end Sample.scenario = Some m_end
    /\ is_max_end Sample.scenario m_end
    /\ generate_month_hours (month_start Sample.scenario) (month_end Sample.scenario)
       = inr month_hours
    /\ Forall (fun hour_start => m_start <= hour_start < m_end) month_hours.
Proof. apply (window_bounds Sample.scenario). discriminate. Defined.

(** C2, as the code has it.  On a table that is not empty the hour loop
    returns the bucket starts [month_start + i * one_hour] for
    [i = 0, 1, ...] while they are before [month_end].  Their number is 0
    when [month_end] is not after [month_start] (a record that ends before
    it starts can make it so), and otherwise the quotient of the window's
    width by one hour rounded up: the quotient itself when the width is a
    whole number of hours, and one more otherwise, the last bucket then
    holding the trailing part of an hour. *)
Theorem hour_buckets_enumeration (df : DataFrame) :
  df <> [] ->
  exists m_start m_end month_hours,
    month_start df = Some m_start /\ month_end df = Some m_end
    /\ generate_month_hours (month_start df) (month_end df) = inr month_hours
    /\ month_hours = map (nth_bucket m_start) (seq 0 (List.length month_hours))
    /\ (forall i, (i < List.length month_hours)%nat <-> nth_bucket m_start i < m_end)
    /\ List.length month_hours
       = if m_end <=? m_start then O
         else if (m_end - m_start) mod one_hour =? 0
              then Z.to_nat ((m_end - m_start) / one_hour)
              else S (Z.to_nat ((m_end - m_start) / one_hour)).
Proof.
  intros Hne.
  destruct (month_start_spec df Hne) as [s [Hs _]].
  destruct (month_end_spec df Hne) as [e [He _]].
  exists s, e, (map (nth_bucket s) (seq 0 (bucket_count s e))).
  rewrite Hs, He, length_map, length_seq.
  split; [reflexivity|]. split; [reflexivity|].
  split; [apply generate_month_hours_eq|]. split; [reflexivity|]. split.
  - intros i. apply bucket_count_iff.
  - destruct (Z.leb_spec e s) as [Hle|Hlt].
    + now apply bucket_count_done.
    + apply bucket_count_floor. lia.
Qed.

Lemma hour_buckets_enumeration_witness :
  exists m_start m_end month_hours,
    month_start Sample.scenario = Some m_start
    /\ month_end Sample.scenario = Some m_end
    /\ generate_month_hours (month_start Sample.scenario) (month_end Sample.scenario)
       = inr month_hours
    /\ month_hours = map (nth_bucket m_start) (seq 0 (List.length month_hours))
    /\ (forall i, (i < List.length month_hours)%nat <-> nth_bucket m_start i < m_end)
    /\ List.length month_hours
       = if m_end <=? m_start then O
         else if (m_end - m_start) mod one_hour =? 0
              then Z.to_nat ((m_end - m_start) / one_hour)
              else S (Z.to_nat ((m_end - m_start) / one_hour)).
Proof. apply (hour_buckets_enumeration Sample.scenario). discriminate. Defined.

(** A window that ends before it starts has no bucket. *)
Example inverted_window_no_bucket :
  month_start Sample.inverted = Some (2 * one_hour)
  /\ month_end Sample.inverted = Some one_hour
  /\ generate_month_hours (month_start Sample.inverted) (month_end Sample.inverted)
     = inr [].
Proof. repeat split. Qed.

(** C2, as stated, fails on the two rows of the end-to-end scenario: the
    window runs from 00:30 to 02:15, one hour goes into its width once, and
    the loop yields two buckets, the second one for the trailing 45
    minutes. *)
Lemma hour_count_exceeds_floor :
  month_start Sample.scenario = Some (Sample.jan1 + Sample.minutes 30)
  /\ month_end Sample.scenario = Some (Sample.jan1 + Sample.minutes 135)
  /\ generate_month_hours (month_start Sample.scenario) (month_end Sample.scenario)
     = inr [Sample.jan1 + Sample.minutes 30; Sample.jan1 + Sample.minutes 90]
  /\ (Sample.jan1 + Sample.minutes 135 - (Sample.jan1 + Sample.minutes 30)) / one_hour = 1.
Proof. vm_compute. repeat split. Qed.

(** C10. The buckets in which a record with [startTime < endTime] is
    selected are consecutive: selected in the buckets number [i] and [j],
    it is selected in every bucket number [k] between them. *)
Theorem active_buckets_contiguous (df : DataFrame) (r : ActivityRecord)
  (month_hours : list Z) (i j k : nat) (hi hj hk : Z) :
  startTime r < endTime r ->
  generate_month_hours (month_start df) (month_end df) = inr month_hours ->
  nth_error month_hours i = Some hi ->
  nth_error month_hours j = Some hj ->
  nth_error month_hours k = Some hk ->
  (i <= k <= j)%nat ->
  In r (active_records df hi) ->
  In r (active_records df hj) ->
  In r (active_records df hk).
Proof.
  intros _ Hgen Hi Hj Hk Hikj Hai Haj.
  apply active_records_iff in Hai. apply active_records_iff in Haj.
  apply active_records_iff.
  destruct Hai as [Hin [Hsi _]]. destruct Haj as [_ [_ Hej]].
  split; [exact Hin|].
  assert (Hne : df <> []) by (intros ->; inversion Hin).
  destruct (month_start_spec df Hne) as [s [Hs _]].
  destruct (month_end_spec df Hne) as [e [He _]].
  rewrite Hs, He, generate_month_hours_eq in Hgen.
  injection Hgen as <-.
  apply nth_error_buckets in Hi, Hj, Hk.
  destruct Hi as [_ ->]. destruct Hj as [_ ->]. destruct Hk as [_ ->].
  unfold nth_bucket in *. pose proof one_hour_pos. nia.
Qed.

Lemma active_buckets_contiguous_witness :
  In (mkRecord "h1" 0 (3 * one_hour) (PyInt 4))
     (active_records [mkRecord "h1" 0 (3 * one_hour) (PyInt 4)] one_hour).
Proof.
  apply (active_buckets_contiguous
           [mkRecord "h1" 0 (3 * one_hour) (PyInt 4)]
           (mkRecord "h1" 0 (3 * one_hour) (PyInt 4))
           [0; one_hour; 2 * one_hour] 0 2 1 0 (2 * one_hour) one_hour).
  - reflexivity.
  - reflexivity.
  - reflexivity.
  - reflexivity.
  - reflexivity.
  - lia.
  - vm_compute. now left.
  - vm_compute. now left.
Defined.

(** ** Floats that hold integers *)

Lemma digits2_bounds (m : positive) :
  2 ^ (Zpos (digits2_pos m) - 1) <= Zpos m < 2 ^ Zpos (digits2_pos m).
Proof.
  induction m as [m IH|m IH|]; simpl digits2_pos.
  - rewrite Pos2Z.inj_succ.
    replace (Z.succ (Zpos (digits2_pos m)) - 1) with (Z.succ (Zpos (digits2_pos m) - 1)) by lia.
    rewrite !Z.pow_succ_r by lia. lia.
  - rewrite Pos2Z.inj_succ.
    replace (Z.succ (Zpos (digits2_pos m)) - 1) with (Z.succ (Zpos (digits2_pos m) - 1)) by lia.
    rewrite !Z.pow_succ_r by lia. lia.
  - simpl. lia.
Qed.

Lemma digits2_unique (m : positive) (d : Z) :
  2 ^ (d - 1) <= Zpos m < 2 ^ d -> Zpos (digits2_pos m) = d.
Proof.
  intros [Hlo Hhi]. pose proof (digits2_bounds m) as [Hlo' Hhi'].
  set (d' := Zpos (digits2_pos m)) in *.
  assert (0 < d).
  { destruct (Z.lt_ge_cases 0 d) as [|Hd]; [assumption|].
    assert (2 ^ d <= 2 ^ 0) by (destruct (Z.eq_dec d 0) as [->|]; [lia|rewrite Z.pow_neg_r by lia; simpl; lia]).
    simpl in *. lia. }
  destruct (Z.lt_trichotomy d' d) as [Hlt|[Heq|Hgt]]; [|assumption|].
  - assert (2 ^ d' <= 2 ^ (d - 1)) by (apply Z.pow_le_mono_r; lia). lia.
  - assert (2 ^ d <= 2 ^ (d' - 1)) by (apply Z.pow_le_mono_r; lia). lia.
Qed.

Lemma iter_xO_spec (m d : positive) :
  Zpos (Pos.iter xO m d) = Zpos m * 2 ^ Zpos d.
Proof.
  induction d as [|d IH] using Pos.peano_ind.
  - simpl. lia.
  - rewrite Pos.iter_succ, Pos2Z.inj_succ, Z.pow_succ_r by lia.
    rewrite Pos2Z.inj_xO, IH. lia.
Qed.

Lemma shr_1_exact (k : Z) :
  0 <= k ->
  shr_1 (Build_shr_record (2 * k) false false) = Build_shr_record k false false.
Proof.
  intros Hk. destruct k as [|q|q]; [reflexivity|reflexivity|lia].
Qed.

Lemma pow2_xO (p : positive) : 2 ^ Zpos p~0 = 2 ^ Zpos p * 2 ^ Zpos p.
Proof.
  replace (Zpos p~0) with (Zpos p + Zpos p) by lia.
  now rewrite Z.pow_add_r by lia.
Qed.

Lemma pow2_xI (p : positive) : 2 ^ Zpos p~1 = 2 * (2 ^ Zpos p * 2 ^ Zpos p).
Proof.
  replace (Zpos p~1) with (Z.succ (Zpos p + Zpos p)) by lia.
  now rewrite Z.pow_succ_r, Z.pow_add_r by lia.
Qed.

Lemma iter_shr_exact (p : positive) :
  forall k, 0 <= k ->
    iter_pos shr_1 p (Build_shr_record (k * 2 ^ Zpos p) false false)
    = Build_shr_record k false false.
Proof.
  induction p as [p IH|p IH|]; intros k Hk.
  - change (iter_pos shr_1 p~1 ?x) with (iter_pos shr_1 p (iter_pos shr_1 p (shr_1 x))).
    replace (k * 2 ^ Zpos p~1) with (2 * ((k * 2 ^ Zpos p) * 2 ^ Zpos p))
      by (rewrite pow2_xI; ring).
    rewrite shr_1_exact by (apply Z.mul_nonneg_nonneg; [apply Z.mul_nonneg_nonneg|]; lia).
    rewrite IH by (apply Z.mul_nonneg_nonneg; lia). now apply IH.
  - change (iter_pos shr_1 p~0 ?x) with (iter_pos shr_1 p (iter_pos shr_1 p x)).
    replace (k * 2 ^ Zpos p~0) with ((k * 2 ^ Zpos p) * 2 ^ Zpos p)
      by (rewrite pow2_xO; ring).
    rewrite IH by (apply Z.mul_nonneg_nonneg; lia). now apply IH.
  - change (iter_pos shr_1 1 ?x) with (shr_1 x).
    change (2 ^ 1) with 2. rewrite Z.mul_comm. now apply shr_1_exact.
Qed.

Lemma digits2_shift (a b : positive) (k : Z) :
  0 <= k -> Zpos a = Zpos b * 2 ^ k ->
  Zpos (digits2_pos a) = Zpos (digits2_pos b) + k.
Proof.
  intros Hk Heq. apply digits2_unique.
  pose proof (digits2_bounds b) as [Hlo Hhi].
  assert (0 < 2 ^ k) by (apply Z.pow_pos_nonneg; lia).
  replace (Zpos (digits2_pos b) + k - 1) with ((Zpos (digits2_pos b) - 1) + k) by lia.
  rewrite !Z.pow_add_r by lia. rewrite Heq. nia.
Qed.

Lemma fexp_unfold (x : Z) : fexp prec emax x = Z.max (x - 53) (-1074).
Proof. reflexivity. Qed.

Lemma shr_fexp_canonical (m : positive) (e : Z) :
  fexp prec emax (Zpos (digits2_pos m) + e) = e ->
  shr_fexp prec emax (Zpos m) e loc_Exact
  = (Build_shr_record (Zpos m) false false, e).
Proof.
  intros Hcanon. unfold shr_fexp. simpl Zdigits2. rewrite Hcanon, Z.sub_diag.
  reflexivity.
Qed.

Lemma binary_round_aux_canonical (s : bool) (m : positive) (e : Z) :
  fexp prec emax (Zpos (digits2_pos m) + e) = e ->
  e <= 971 ->
  binary_round_aux prec emax s (Zpos m) e loc_Exact = S754_finite s m e.
Proof.
  intros Hcanon Hmax. unfold binary_round_aux.
  rewrite (shr_fexp_canonical m e Hcanon). simpl shr_m. simpl loc_of_shr_record.
  simpl round_nearest_even. rewrite (shr_fexp_canonical m e Hcanon). simpl shr_m.
  replace (e <=? emax - prec) with true; [reflexivity|].
  symmetry. apply Z.leb_le. unfold emax, prec. lia.
Qed.

Lemma binary_round_exact (s : bool) (m m' : positive) (e : Z) :
  fexp prec emax (Zpos (digits2_pos m) + e) <= 971 ->
  Zpos m' * 2 ^ (fexp prec emax (Zpos (digits2_pos m) + e)
                 - Z.min e (fexp prec emax (Zpos (digits2_pos m) + e)))
  = Zpos m * 2 ^ (e - Z.min e (fexp prec emax (Zpos (digits2_pos m) + e))) ->
  binary_round prec emax s m e
  = S754_finite s m' (fexp prec emax (Zpos (digits2_pos m) + e)).
Proof.
  unfold binary_round.
  remember (fexp prec emax (Zpos (digits2_pos m) + e)) as e' eqn:He'.
  intros Hmax Hval. unfold shl_align.
  destruct (Z.lt_ge_cases e' e) as [Hlt|Hge].
  - (* the mantissa is shifted left *)
    rewrite Z.min_r, Z.sub_diag, Z.pow_0_r, Z.mul_1_r in Hval by lia.
    destruct (e' - e) as [|p|p] eqn:Hd; try lia.
    assert (Hmz : Pos.iter xO m p = m').
    { apply Pos2Z.inj. rewrite iter_xO_spec, Hval. f_equal. f_equal. lia. }
    rewrite Hmz. apply binary_round_aux_canonical; [|assumption].
    rewrite (digits2_shift m' m (e - e')) by (assumption || lia).
    replace (Zpos (digits2_pos m) + (e - e') + e')
      with (Zpos (digits2_pos m) + e) by lia.
    now symmetry.
  - rewrite Z.min_l, Z.sub_diag, Z.pow_0_r, Z.mul_1_r in Hval by lia.
    assert (Hdig : Zpos (digits2_pos m') + e' = Zpos (digits2_pos m) + e).
    { rewrite (digits2_shift m m' (e' - e)) by (lia || (symmetry; assumption)). lia. }
    replace (match e' - e with Z.neg d => (Pos.iter xO m d, e') | _ => (m, e) end)
      with (m, e) by (destruct (e' - e) eqn:Hd; try reflexivity; lia).
    unfold binary_round_aux.
    assert (Hfirst : shr_fexp prec emax (Zpos m) e loc_Exact
                     = (Build_shr_record (Zpos m') false false, e')).
    { unfold shr_fexp. simpl Zdigits2. rewrite <- He'. simpl shr_record_of_loc.
      unfold shr. destruct (e' - e) as [|p|p] eqn:Hd; try lia.
      - assert (e' = e) by lia. subst e'. rewrite Z.pow_0_r, Z.mul_1_r in Hval.
        rewrite <- Hval. congruence.
      - rewrite <- Hval. rewrite iter_shr_exact by lia.
        f_equal. lia. }
    rewrite Hfirst. simpl shr_m. simpl loc_of_shr_record. simpl round_nearest_even.
    rewrite shr_fexp_canonical by (rewrite Hdig; congruence). simpl shr_m.
    replace (e' <=? emax - prec) with true; [reflexivity|].
    symmetry. apply Z.leb_le. unfold emax, prec. lia.
Qed.

Lemma pow2_pos (k : Z) : 0 <= k -> 0 < 2 ^ k.
Proof. intros. apply Z.pow_pos_nonneg; lia. Qed.

Lemma pow2_le_inv (a b : Z) : 0 <= b -> 2 ^ a <= 2 ^ b -> a <= b.
Proof.
  intros Hb Hle. destruct (Z.le_gt_cases a b) as [|Hgt]; [assumption|].
  assert (2 ^ b < 2 ^ a) by (apply Z.pow_lt_mono_r; lia). lia.
Qed.

Lemma binary_round_represents (s : bool) (m : positive) (e z : Z) :
  -1074 <= e ->
  Zpos m * 2 ^ (e + 1074) = z * 2 ^ 1074 ->
  0 < z <= 2 ^ 53 ->
  represents (binary_round prec emax s m e) (cond_Zopp s z).
Proof.
  intros He Hval [Hz0 Hz53].
  pose proof (digits2_bounds m) as [Hlo Hhi].
  remember (Zpos (digits2_pos m)) as d eqn:Hd.
  assert (Hd1 : 1 <= d) by lia.
  assert (HK : 0 < 2 ^ 1074) by (apply pow2_pos; lia).
  assert (HeK : 0 < 2 ^ (e + 1074)) by (apply pow2_pos; lia).
  (* the value has at most 54 bits *)
  assert (Hbits : d + e <= 54).
  { assert (2 ^ (d - 1 + (e + 1074)) <= 2 ^ (53 + 1074)).
    { rewrite !Z.pow_add_r by lia. nia. }
    apply pow2_le_inv in H; lia. }
  remember (fexp prec emax (d + e)) as e' eqn:He'.
  assert (He'v : e' = Z.max (d + e - 53) (-1074)) by (subst e'; apply fexp_unfold).
  assert (exists m' : positive,
             Zpos m' * 2 ^ (e' - Z.min e e') = Zpos m * 2 ^ (e - Z.min e e'))
    as [m' Hm'].
  { destruct (Z.le_gt_cases e' e) as [Hle|Hgt].
    - exists (Z.to_pos (Zpos m * 2 ^ (e - e'))).
      rewrite Z.min_r, Z.sub_diag, Z.pow_0_r, Z.mul_1_r by lia.
      apply Z2Pos.id. apply Z.mul_pos_pos; [lia|apply pow2_pos; lia].
    - rewrite Z.min_l, Z.sub_diag, Z.pow_0_r, Z.mul_1_r by lia.
      assert (Hm : Zpos m = z * 2 ^ (- e)).
      { replace (2 ^ 1074) with (2 ^ (- e) * 2 ^ (e + 1074)) in Hval
          by (rewrite <- Z.pow_add_r by lia; f_equal; lia).
        nia. }
      destruct (Z.le_gt_cases e' 0) as [He0|He1].
      + exists (Z.to_pos (z * 2 ^ (- e'))).
        rewrite Z2Pos.id by (apply Z.mul_pos_pos; [lia|apply pow2_pos; lia]).
        rewrite Hm, <- Z.mul_assoc, <- Z.pow_add_r by lia. do 2 f_equal. lia.
      + assert (e' = 1) by lia. subst e'.
        assert (Hz : z = 2 ^ 53).
        { assert (2 ^ (d - 1) <= z * 2 ^ (- e)) by lia.
          replace (d - 1) with (53 + - e) in H0 by lia.
          rewrite Z.pow_add_r in H0 by lia.
          assert (0 < 2 ^ (- e)) by (apply pow2_pos; lia). nia. }
        exists (Z.to_pos (2 ^ 52)).
        rewrite Z2Pos.id by (apply pow2_pos; lia).
        rewrite Hm, Hz, <- !Z.pow_add_r by lia. f_equal. lia. }
  subst d. pose proof (binary_round_exact s m m' e) as Hround.
  rewrite <- He' in Hround. rewrite Hround by (lia || exact Hm').
  simpl. split; [lia|].
  assert (Hmin : 0 <= Z.min e e' + 1074) by lia.
  assert (Zpos m' * 2 ^ (e' + 1074) = Zpos m * 2 ^ (e + 1074)).
  { assert (HA : 2 ^ (e' + 1074) = 2 ^ (e' - Z.min e e') * 2 ^ (Z.min e e' + 1074))
      by (rewrite <- Z.pow_add_r by lia; f_equal; lia).
    assert (HB : 2 ^ (e + 1074) = 2 ^ (e - Z.min e e') * 2 ^ (Z.min e e' + 1074))
      by (rewrite <- Z.pow_add_r by lia; f_equal; lia).
    rewrite HA, HB, !Z.mul_assoc, Hm'. reflexivity. }
  destruct s; unfold cond_Zopp; [rewrite !Z.mul_opp_l; f_equal|]; lia.
Qed.

Lemma binary_normalize_represents (M e z : Z) :
  -1074 <= e ->
  M * 2 ^ (e + 1074) = z * 2 ^ 1074 ->
  Z.abs z <= 2 ^ 53 ->
  represents (binary_normalize prec emax M e false) z.
Proof.
  intros He Hval Hz.
  assert (HK : 0 < 2 ^ 1074) by (apply pow2_pos; lia).
  assert (HeK : 0 < 2 ^ (e + 1074)) by (apply pow2_pos; lia).
  destruct M as [|m|m]; simpl binary_normalize.
  - simpl. split; [reflexivity|nia].
  - replace z with (cond_Zopp false z) by reflexivity.
    apply binary_round_represents; [assumption|assumption|]. nia.
  - replace z with (cond_Zopp true (- z)) by (simpl; lia).
    apply binary_round_represents; [assumption| |].
    + rewrite Z.mul_opp_l, <- Hval.
      change (Z.neg m) with (- Zpos m). rewrite Z.mul_opp_l. lia.
    + change (Z.neg m) with (- Zpos m) in Hval. rewrite Z.mul_opp_l in Hval. nia.
Qed.

Lemma shl_align_fst (m : positive) (e e' : Z) :
  e' <= e -> Zpos (fst (shl_align m e e')) = Zpos m * 2 ^ (e - e').
Proof.
  intros Hle. unfold shl_align.
  destruct (e' - e) as [|p|p] eqn:Hd; simpl fst.
  - replace (e - e') with 0 by lia. simpl. lia.
  - lia.
  - rewrite iter_xO_spec. do 2 f_equal. lia.
Qed.

Lemma float_add_represents (x y : float) (a b : Z) :
  represents x a -> represents y b -> Z.abs (a + b) <= 2 ^ 53 ->
  represents (float_add x y) (a + b).
Proof.
  intros Hx Hy Hab.
  destruct x as [sx| | |sx mx ex]; try contradiction;
    destruct y as [sy| | |sy my ey]; try contradiction.
  - destruct Hx as [-> ->], Hy as [-> ->]. simpl. now split.
  - destruct Hx as [-> ->]. exact Hy.
  - destruct Hy as [-> ->]. rewrite Z.add_0_r. exact Hx.
  - destruct Hx as [Hex Hx], Hy as [Hey Hy].
    unfold float_add, SFadd.
    apply binary_normalize_represents; [lia| |assumption].
    rewrite Z.mul_add_distr_r, Z.mul_add_distr_r, <- Hx, <- Hy.
    assert (Hsplit : forall s m e, Z.min ex ey <= e ->
               cond_Zopp s (Zpos (fst (shl_align m e (Z.min ex ey))))
               * 2 ^ (Z.min ex ey + 1074)
               = cond_Zopp s (Zpos m) * 2 ^ (e + 1074)).
    { intros s m e Hle. rewrite shl_align_fst by assumption.
      replace (2 ^ (e + 1074)) with (2 ^ (e - Z.min ex ey) * 2 ^ (Z.min ex ey + 1074))
        by (rewrite <- Z.pow_add_r by lia; f_equal; lia).
      destruct s; unfold cond_Zopp; rewrite ?Z.mul_opp_l; ring. }
    rewrite !Hsplit by lia. reflexivity.
Qed.

Lemma int_of_float_represents (f : float) (z : Z) :
  represents f z -> int_of_float f = inr z.
Proof.
  destruct f as [s| | |s m e]; try contradiction; unfold represents, int_of_float.
  - now intros [_ ->].
  - intros [He Hval]. f_equal.
    assert (HK : 0 < 2 ^ 1074) by (apply pow2_pos; lia).
    destruct (Z.le_gt_cases 0 e) as [Hpos|Hneg].
    + rewrite Z.shiftl_mul_pow2 by assumption.
      rewrite Z.pow_add_r, Z.mul_assoc in Hval by lia.
      apply Z.mul_reg_r in Hval; [|lia].
      destruct s; unfold cond_Zopp in *; rewrite ?Z.mul_opp_l in Hval; lia.
    + rewrite Z.shiftl_div_pow2 by lia.
      assert (HeK : 0 < 2 ^ (e + 1074)) by (apply pow2_pos; lia).
      assert (Hne : 0 < 2 ^ (- e)) by (apply pow2_pos; lia).
      replace (2 ^ 1074) with (2 ^ (- e) * 2 ^ (e + 1074)) in Hval
        by (rewrite <- Z.pow_add_r by lia; f_equal; lia).
      rewrite Z.mul_assoc in Hval. apply Z.mul_reg_r in Hval; [|lia].
      destruct s; unfold cond_Zopp in *.
      * assert (Zpos m = (- z) * 2 ^ (- e)) as -> by lia.
        rewrite Z.div_mul by lia. lia.
      * rewrite Hval, Z.div_mul by lia. reflexivity.
Qed.

Lemma float_of_int_exact (z : Z) :
  Z.abs z <= exact_bound ->
  exists f, float_of_int z = inr f /\ represents f z.
Proof.
  intros Hz. unfold float_of_int.
  pose proof (binary_normalize_represents z 0 z ltac:(lia) eq_refl Hz) as Hrep.
  destruct (binary_normalize prec emax z 0 false) as [s| | |s m e];
    try contradiction; eexists; split; try reflexivity; exact Hrep.
Qed.

Lemma float_add_zero_l (f : float) (z : Z) :
  represents f z -> float_add float_zero f = f.
Proof.
  destruct f as [s| | |s m e]; try contradiction; [|reflexivity].
  intros [-> _]. reflexivity.
Qed.

(** The first contribution of a host: [0.0 + t] is the float [t] itself
    as long as [t] is within the exact range. *)
Lemma first_contribution_exact (t : Z) :
  Z.abs t <= exact_bound ->
  exists g, py_add (PyFloat float_zero) (PyInt t) = inr (PyFloat g)
            /\ float_of_int t = inr g /\ represents g t.
Proof.
  intros Ht. destruct (float_of_int_exact t Ht) as [g [Hg Hrep]].
  exists g. unfold py_add. rewrite Hg. unfold bind.
  now rewrite (float_add_zero_l g t Hrep).
Qed.

(** Whatever [t] is, [0.0 + t] is a float when it is defined. *)
Lemma first_contribution_is_float (t : Z) (v : pyval) :
  py_add (PyFloat float_zero) (PyInt t) = inr v -> exists g, v = PyFloat g.
Proof.
  unfold py_add, bind. destruct (float_of_int t) as [e|g]; [discriminate|].
  intros [= <-]. eauto.
Qed.

Lemma py_int_truncation (c : pyval) (t : Z) :
  py_int c = inr t -> truncation c t.
Proof.
  destruct c as [z|[s| | |s m e]]; unfold py_int, int_of_float, truncation;
    try discriminate; intros [= <-]; try reflexivity.
  assert (Hshift : 0 <= Z.shiftl (Zpos m) e) by (apply Z.shiftl_nonneg; lia).
  split; [destruct s; unfold cond_Zopp; lia|].
  replace (Z.abs (cond_Zopp s (Z.shiftl (Zpos m) e))) with (Z.shiftl (Zpos m) e)
    by (destruct s; unfold cond_Zopp; lia).
  destruct (Z.le_gt_cases 0 e) as [Hpos|Hneg].
  - rewrite Z.max_l by lia. rewrite Z.shiftl_mul_pow2 by assumption.
    rewrite Z.add_0_r, Z.pow_0_r. lia.
  - rewrite Z.max_r by lia. rewrite Z.shiftl_div_pow2 by lia.
    replace (e + - e) with 0 by lia. rewrite Z.pow_0_r, Z.mul_1_r.
    assert (Hp : 0 < 2 ^ (- e)) by (apply pow2_pos; lia).
    pose proof (Z.div_mod (Zpos m) (2 ^ (- e)) ltac:(lia)) as Hdm.
    pose proof (Z.mod_pos_bound (Zpos m) (2 ^ (- e)) Hp) as Hm.
    nia.
Qed.

Lemma py_int_total (c : pyval) :
  match c with
  | PyFloat (S754_infinity _) | PyFloat S754_nan => True
  | _ => exists t, py_int c = inr t
  end.
Proof.
  destruct c as [z|[s| | |s m e]]; simpl; eauto.
Qed.

(** ** drop_duplicates *)

Lemma existsb_eqb_In (h : string) (seen : list string) :
  existsb (String.eqb h) seen = true <-> In h seen.
Proof.
  rewrite existsb_exists. split.
  - intros [x [Hin Heq]]. apply String.eqb_eq in Heq. now subst.
  - intros Hin. exists h. split; [assumption|apply String.eqb_refl].
Qed.

Lemma drop_duplicates_seen_In (rows : DataFrame) :
  forall (seen : list string) (r : ActivityRecord),
    In r (drop_duplicates_seen seen rows)
    <-> ~ In (hostName r) seen /\ first_with_host (hostName r) rows = Some r.
Proof.
  unfold first_with_host.
  induction rows as [|a rows IH]; intros seen r; simpl.
  - split; [contradiction|]. intros [_ H]. discriminate.
  - destruct (existsb (String.eqb (hostName a)) seen) eqn:Hseen.
    + apply existsb_eqb_In in Hseen. rewrite IH.
      destruct (String.eqb_spec (hostName a) (hostName r)) as [Heq|Hne].
      * rewrite <- Heq. split; [tauto|]. intros [Hn _]. contradiction.
      * tauto.
    + assert (Hnot : ~ In (hostName a) seen).
      { intros Hin. apply existsb_eqb_In in Hin. congruence. }
      simpl. rewrite IH. simpl.
      destruct (String.eqb_spec (hostName a) (hostName r)) as [Heq|Hne].
      * split.
        -- intros [<-|[Hn _]]; [split; [assumption|reflexivity]|].
           exfalso. apply Hn. now left.
        -- intros [_ [= <-]]. now left.
      * split.
        -- intros [<-|[Hn Hf]]; [congruence|]. split; [|assumption].
           intros Hin. apply Hn. now right.
        -- intros [Hn Hf]. right. split; [|assumption].
           intros [Heq|Hin]; [congruence|contradiction].
Qed.

Lemma drop_duplicates_In (rows : DataFrame) (r : ActivityRecord) :
  In r (drop_duplicates rows) <-> first_with_host (hostName r) rows = Some r.
Proof.
  unfold drop_duplicates. rewrite drop_duplicates_seen_In. simpl. tauto.
Qed.

Lemma drop_duplicates_seen_NoDup (rows : DataFrame) :
  forall seen, NoDup (map hostName (drop_duplicates_seen seen rows)).
Proof.
  induction rows as [|a rows IH]; intros seen; simpl; [constructor|].
  destruct (existsb (String.eqb (hostName a)) seen); [apply IH|].
  simpl. constructor; [|apply IH].
  intros Hin. apply in_map_iff in Hin. destruct Hin as [r [Heq Hr]].
  apply drop_duplicates_seen_In in Hr. destruct Hr as [Hn _].
  apply Hn. left. now symmetry.
Qed.

Lemma drop_duplicates_NoDup (rows : DataFrame) :
  NoDup (map hostName (drop_duplicates rows)).
Proof. apply drop_duplicates_seen_NoDup. Qed.

Lemma first_with_host_Some (h : string) (rows : DataFrame) (r : ActivityRecord) :
  first_with_host h rows = Some r -> In r rows /\ hostName r = h.
Proof.
  unfold first_with_host. intros Hf. apply find_some in Hf.
  destruct Hf as [Hin Heq]. apply String.eqb_eq in Heq. now split.
Qed.

Lemma first_with_host_exists (h : string) (rows : DataFrame) (r : ActivityRecord) :
  In r rows -> hostName r = h -> exists r0, first_with_host h rows = Some r0.
Proof.
  unfold first_with_host. intros Hin Heq.
  destruct (find (fun r' => String.eqb (hostName r') h) rows) as [r0|] eqn:Hf; [eauto|].
  exfalso. apply (find_none _ _ Hf) in Hin. rewrite Heq, String.eqb_refl in Hin.
  discriminate.
Qed.

(** The host names that survive are the host names that occur. *)
Lemma drop_duplicates_names (rows : DataFrame) (h : string) :
  In h (map hostName (drop_duplicates rows)) <-> In h (map hostName rows).
Proof.
  rewrite !in_map_iff. split.
  - intros [r [Heq Hr]]. apply drop_duplicates_In in Hr.
    apply first_with_host_Some in Hr. exists r. tauto.
  - intros [r [Heq Hr]].
    destruct (first_with_host_exists h rows r Hr Heq) as [r0 Hr0].
    pose proof (first_with_host_Some _ _ _ Hr0) as [_ Hname].
    exists r0. split; [assumption|].
    apply drop_duplicates_In. now rewrite Hname.
Qed.

Lemma drop_duplicates_length (rows : DataFrame) :
  List.length (drop_duplicates rows)
  = List.length (nodup string_dec (map hostName rows)).
Proof.
  rewrite <- (length_map hostName).
  apply Nat.le_antisymm; apply NoDup_incl_length.
  - apply drop_duplicates_NoDup.
  - intros h Hin. apply nodup_In. now apply drop_duplicates_names.
  - apply NoDup_nodup.
  - intros h Hin. apply nodup_In in Hin. now apply drop_duplicates_names.
Qed.

(** ** activehosts *)

Lemma dict_set_absent (d : Dict) (k : string) (v : pyval) :
  dict_get d k = None -> dict_set d k v = d ++ [(k, v)].
Proof.
  induction d as [|[k' v'] d IH]; simpl; [reflexivity|].
  destruct (String.eqb k' k); [discriminate|].
  intros Hget. now rewrite IH.
Qed.

Lemma dict_get_snoc_other (d : Dict) (k k' : string) (v : pyval) :
  k <> k' -> dict_get d k' = None -> dict_get (d ++ [(k, v)]) k' = None.
Proof.
  intros Hne. induction d as [|[k0 v0] d IH]; simpl.
  - intros _. destruct (String.eqb_spec k k'); [contradiction|reflexivity].
  - destruct (String.eqb k0 k'); [discriminate|exact IH].
Qed.

Lemma mapM_inr {A B : Type} (f : A -> result B) (l : list A) (bs : list B) :
  mapM f l = inr bs <-> Forall2 (fun a b => f a = inr b) l bs.
Proof.
  split.
  - revert bs. induction l as [|a l IH]; intros bs; simpl.
    + intros [= <-]. constructor.
    + unfold bind. destruct (f a) as [e|b] eqn:Hfa; [discriminate|].
      destruct (mapM f l) as [e|bs']; [discriminate|].
      intros [= <-]. constructor; [assumption|]. now apply IH.
  - intros H. induction H as [|a b l bs' Hfa _ IH]; simpl; [reflexivity|].
    unfold bind. now rewrite Hfa, IH.
Qed.

Lemma dict_iadd_fresh (d : Dict) (k : string) (t : Z) :
  dict_get d k = None ->
  dict_iadd d k t
  = (v <- py_add (PyFloat float_zero) (PyInt t) ;; ret (d ++ [(k, v)])).
Proof.
  intros Hget. unfold dict_iadd. rewrite Hget. unfold bind.
  destruct (py_add (PyFloat float_zero) (PyInt t)); [reflexivity|].
  unfold ret. now rewrite dict_set_absent.
Qed.

Lemma bind_inr {A B : Type} (a : A) (k : A -> result B) : bind (inr a) k = k a.
Proof. reflexivity. Qed.

Lemma bind_inl {A B : Type} (e : Exception) (k : A -> result B) :
  bind (inl e) k = inl e.
Proof. reflexivity. Qed.

(** On rows with pairwise different host names, none of them already a
    key, the accumulation loop appends one fresh entry per row. *)
Lemma accumulate_fresh (rows : DataFrame) :
  forall d : Dict,
    NoDup (map hostName rows) ->
    (forall r, In r rows -> dict_get d (hostName r) = None) ->
    accumulate d rows = (es <- mapM cores_entry rows ;; ret (d ++ es)).
Proof.
  induction rows as [|r rows IH]; intros d Hnd Hfresh; cbn [accumulate mapM].
  - unfold bind, ret. now rewrite app_nil_r.
  - inversion Hnd as [|? ? Hnotin Hnd']; subst.
    destruct (py_int (hostBillableCores r)) as [e|t] eqn:Hint.
    { assert (Hentry : cores_entry r = inl e)
        by (unfold cores_entry; now rewrite Hint).
      now rewrite Hentry, !bind_inl. }
    rewrite bind_inr, dict_iadd_fresh by (apply Hfresh; now left).
    destruct (py_add (PyFloat float_zero) (PyInt t)) as [e|v] eqn:Hadd.
    { assert (Hentry : cores_entry r = inl e)
        by (unfold cores_entry; rewrite Hint, bind_inr; now rewrite Hadd).
      now rewrite Hentry, !bind_inl. }
    assert (Hentry : cores_entry r = inr (hostName r, v))
      by (unfold cores_entry; rewrite Hint, bind_inr; now rewrite Hadd).
    rewrite Hentry, !bind_inr. unfold ret at 1. rewrite ?bind_inr, IH.
    + unfold bind, ret. destruct (mapM cores_entry rows) as [e|es]; [reflexivity|].
      now rewrite <- app_assoc.
    + assumption.
    + intros r' Hr'. apply dict_get_snoc_other.
      * intros Heq. apply Hnotin. rewrite Heq. now apply in_map.
      * apply Hfresh. now right.
Qed.

Lemma accumulate_drop_duplicates (rows : DataFrame) :
  accumulate [] (drop_duplicates rows) = mapM cores_entry (drop_duplicates rows).
Proof.
  rewrite accumulate_fresh; [|apply drop_duplicates_NoDup|reflexivity].
  unfold bind, ret. now destruct (mapM cores_entry (drop_duplicates rows)).
Qed.

(** ** One hour of the analysis *)

Lemma cores_entry_inr (r : ActivityRecord) (kv : string * pyval) :
  cores_entry r = inr kv
  <-> exists t, py_int (hostBillableCores r) = inr t
                /\ py_add (PyFloat float_zero) (PyInt t) = inr (snd kv)
                /\ fst kv = hostName r.
Proof.
  unfold cores_entry. split.
  - destruct (py_int (hostBillableCores r)) as [e|t]; [discriminate|].
    rewrite bind_inr.
    destruct (py_add (PyFloat float_zero) (PyInt t)) as [e|v] eqn:Hadd;
      [discriminate|].
    rewrite bind_inr. intros [= <-]. exists t. cbn [fst snd]. auto.
  - intros [t [-> [Hadd Hname]]]. rewrite bind_inr, Hadd, bind_inr.
    destruct kv as [k v]. simpl in *. now subst.
Qed.

(** The result of one hour, read off the rows that survive the mask and the
    removal of duplicates. *)
Lemma analyze_hour_inr (df : DataFrame) (hour_start : Z) (hr : HourResult) :
  analyze_hour df hour_start = inr hr
  <-> exists es total,
      mapM cores_entry (drop_duplicates (active_records df hour_start)) = inr es
      /\ py_sum (map snd es) = inr total
      /\ py_int total = inr (total_hostBillableCores hr)
      /\ hr = {| hour := strftime_hour hour_start;
                 day_of_month := day_of hour_start;
                 hour_of_day := hour_of hour_start;
                 total_hostnames := Z.of_nat (List.length es);
                 total_hostBillableCores := total_hostBillableCores hr;
                 hostnames := map (fun kv => mkDetail (fst kv) (snd kv)) es |}.
Proof.
  unfold analyze_hour. rewrite accumulate_drop_duplicates. split.
  - destruct (mapM cores_entry _) as [e|es] eqn:Hes; [discriminate|].
    rewrite bind_inr.
    destruct (py_sum (map snd es)) as [e|total] eqn:Hsum; [discriminate|].
    rewrite bind_inr.
    destruct (py_int total) as [e|tc] eqn:Hint; [discriminate|]. rewrite bind_inr.
    intros [= <-]. exists es, total. cbn [total_hostBillableCores]. auto.
  - intros [es [total [-> [Hsum [Hint ->]]]]]. rewrite bind_inr, Hsum, bind_inr.
    simpl in Hint. rewrite Hint, bind_inr. reflexivity.
Qed.

Lemma Forall2_map_r {A B C : Type} (P : A -> C -> Prop) (g : B -> C)
  (l : list A) (l' : list B) :
  Forall2 (fun a b => P a (g b)) l l' -> Forall2 P l (map g l').
Proof. induction 1; simpl; constructor; assumption. Qed.

(** Row by row: every surviving row yields one detail under its own host
    name, holding [0.0 + t] for the integer [t] that [int] makes of the
    row's core count. *)
Lemma hour_details (df : DataFrame) (hour_start : Z) (hr : HourResult) :
  analyze_hour df hour_start = inr hr ->
  Forall2 (fun r d =>
             hostname d = hostName r
             /\ exists t, py_int (hostBillableCores r) = inr t
                          /\ py_add (PyFloat float_zero) (PyInt t)
                             = inr (detail_hostBillableCores d))
          (drop_duplicates (active_records df hour_start)) (hostnames hr).
Proof.
  intros Hhr. apply analyze_hour_inr in Hhr.
  destruct Hhr as [es [total [Hes [_ [_ ->]]]]]. simpl hostnames.
  apply Forall2_map_r. apply mapM_inr in Hes.
  eapply Forall2_impl; [|exact Hes]. intros r kv Hkv. simpl.
  apply cores_entry_inr in Hkv. destruct Hkv as [t [Hint [Hadd Hname]]].
  split; [assumption|]. exists t. now split.
Qed.

Lemma hour_total_hostnames (df : DataFrame) (hour_start : Z) (hr : HourResult) :
  analyze_hour df hour_start = inr hr ->
  total_hostnames hr
  = Z.of_nat (List.length (drop_duplicates (active_records df hour_start)))
  /\ List.length (hostnames hr)
     = List.length (drop_duplicates (active_records df hour_start)).
Proof.
  intros Hhr. apply analyze_hour_inr in Hhr.
  destruct Hhr as [es [total [Hes [_ [_ ->]]]]]. simpl.
  apply mapM_inr, Forall2_length in Hes. rewrite length_map. now rewrite Hes.
Qed.

Lemma analyze_hours_inr (df : DataFrame) (month_hours : list Z)
  (results : list HourResult) :
  analyze_hours df month_hours = inr results
  <-> Forall2 (fun hour_start hr => analyze_hour df hour_start = inr hr)
              month_hours results.
Proof.
  split.
  - revert results. induction month_hours as [|h hs IH]; intros results;
      cbn [analyze_hours].
    + intros [= <-]. constructor.
    + destruct (analyze_hour df h) as [e|hr] eqn:Hh; [discriminate|].
      rewrite bind_inr.
      destruct (analyze_hours df hs) as [e|rs]; [discriminate|].
      rewrite bind_inr. intros [= <-]. constructor; [assumption|]. now apply IH.
  - intros H. induction H as [|h hr hs rs Hh _ IH]; cbn [analyze_hours];
      [reflexivity|].
    now rewrite Hh, bind_inr, IH, bind_inr.
Qed.

(** ** Sums of floats that hold integers *)

Lemma Zsum_abs_nonneg (ts : list Z) : 0 <= Zsum (map Z.abs ts).
Proof. induction ts as [|t ts IH]; simpl; lia. Qed.

Lemma py_sum_from_exact (vs : list pyval) :
  forall (ts : list Z) (acc : float) (s : Z),
    represents acc s ->
    Forall2 (fun v t => exists g, v = PyFloat g /\ represents g t) vs ts ->
    Z.abs s + Zsum (map Z.abs ts) <= exact_bound ->
    exists g, py_sum_from (PyFloat acc) vs = inr (PyFloat g)
              /\ represents g (s + Zsum ts).
Proof.
  induction vs as [|v vs IH]; intros ts acc s Hacc Hall Hbound.
  - inversion Hall; subst. exists acc. cbn [py_sum_from Zsum fold_right].
    now rewrite Z.add_0_r.
  - inversion Hall as [|? t ? ts' [g [-> Hg]] Hrest]; subst.
    cbn [py_sum_from py_add]. rewrite bind_inr.
    cbn [map Zsum fold_right] in Hbound |- *. fold (Zsum (map Z.abs ts')) in Hbound.
    fold (Zsum ts').
    pose proof (Zsum_abs_nonneg ts') as Hnn.
    destruct (IH ts' (float_add acc g) (s + t)) as [g' [Hsum Hrep]].
    + apply float_add_represents; [assumption|assumption|].
      unfold exact_bound in Hbound. lia.
    + assumption.
    + lia.
    + exists g'. split; [assumption|]. now rewrite Z.add_assoc.
Qed.

Lemma py_sum_exact (vs : list pyval) (ts : list Z) :
  Forall2 (fun v t => exists g, v = PyFloat g /\ represents g t) vs ts ->
  Zsum (map Z.abs ts) <= exact_bound ->
  exists total, py_sum vs = inr total /\ py_int total = inr (Zsum ts).
Proof.
  intros Hall Hbound. unfold py_sum.
  destruct Hall as [|v t vs ts [g [-> Hg]] Hrest].
  - exists (PyInt 0). split; reflexivity.
  - cbn [py_sum_from py_add].
    replace (float_of_int 0) with (@inr Exception float float_zero) by reflexivity.
    rewrite !bind_inr, (float_add_zero_l g t Hg).
    cbn [map Zsum fold_right] in Hbound |- *. fold (Zsum (map Z.abs ts)) in Hbound.
    fold (Zsum ts).
    destruct (py_sum_from_exact vs ts g t Hg Hrest Hbound) as [g' [Hsum Hrep]].
    exists (PyFloat g'). split; [assumption|].
    cbn [py_int]. now apply int_of_float_represents.
Qed.

(** The entries of rows whose integer core counts are within the exact
    range. *)
Lemma mapM_cores_entry_exact (rows : DataFrame) :
  forall ts : list Z,
    mapM py_int (map hostBillableCores rows) = inr ts ->
    Forall (fun t => Z.abs t <= exact_bound) ts ->
    exists es, mapM cores_entry rows = inr es
               /\ Forall2 (fun v t => exists g, v = PyFloat g /\ represents g t)
                          (map snd es) ts.
Proof.
  induction rows as [|r rows IH]; intros ts Hts Hall; cbn [map mapM] in Hts |- *.
  - injection Hts as <-. exists []. split; [reflexivity|constructor].
  - destruct (py_int (hostBillableCores r)) as [e|t] eqn:Hint; [discriminate|].
    rewrite bind_inr in Hts.
    destruct (mapM py_int (map hostBillableCores rows)) as [e|ts'] eqn:Hrest;
      [discriminate|].
    rewrite bind_inr in Hts. injection Hts as <-.
    inversion Hall as [|? ? Ht Hall']; subst.
    destruct (IH ts' eq_refl Hall') as [es [Hes Hrep]].
    destruct (first_contribution_exact t Ht) as [g [Hadd [_ Hg]]].
    assert (Hentry : cores_entry r = inr (hostName r, PyFloat g)).
    { apply cores_entry_inr. exists t. auto. }
    rewrite Hentry, bind_inr, Hes, bind_inr.
    eexists. split; [reflexivity|]. cbn [map snd]. constructor; [eauto|assumption].
Qed.

Lemma Zsum_abs_bound (ts : list Z) (b : Z) :
  Zsum (map Z.abs ts) <= b -> Forall (fun t => Z.abs t <= b) ts.
Proof.
  revert b. induction ts as [|t ts IH]; intros b Hb; constructor.
  - cbn [map Zsum fold_right] in Hb. pose proof (Zsum_abs_nonneg ts).
    unfold Zsum in *. lia.
  - cbn [map Zsum fold_right] in Hb. apply IH. fold (Zsum (map Z.abs ts)) in Hb.
    lia.
Qed.

(** ** Details per host *)

Lemma details_filter_absent (Q : ActivityRecord -> HostnameDetail -> Prop)
  (rows : DataFrame) (ds : list HostnameDetail) (h : string) :
  Forall2 (fun r d => hostname d = hostName r /\ Q r d) rows ds ->
  ~ In h (map hostName rows) ->
  filter (fun d => String.eqb (hostname d) h) ds = [].
Proof.
  induction 1 as [|r d rows ds [Hname _] _ IH]; intros Hnotin; simpl; [reflexivity|].
  destruct (String.eqb_spec (hostname d) h) as [Heq|Hne].
  - exfalso. apply Hnotin. left. congruence.
  - apply IH. intros Hin. apply Hnotin. now right.
Qed.

Lemma details_filter_single (Q : ActivityRecord -> HostnameDetail -> Prop)
  (rows : DataFrame) (ds : list HostnameDetail) (r0 : ActivityRecord) :
  Forall2 (fun r d => hostname d = hostName r /\ Q r d) rows ds ->
  NoDup (map hostName rows) ->
  In r0 rows ->
  exists d0, filter (fun d => String.eqb (hostname d) (hostName r0)) ds = [d0]
             /\ hostname d0 = hostName r0 /\ Q r0 d0.
Proof.
  induction 1 as [|r d rows ds [Hname HQ] Hrest IH]; intros Hnd Hin;
    [contradiction|].
  inversion Hnd as [|? ? Hnotin Hnd']; subst. simpl.
  destruct (String.eqb_spec (hostname d) (hostName r0)) as [Heq|Hne].
  - assert (r = r0).
    { destruct Hin as [|Hin]; [assumption|]. exfalso. apply Hnotin.
      rewrite <- Hname, Heq. now apply in_map. }
    subst r0. exists d. split; [|now split].
    f_equal. apply (details_filter_absent Q rows); assumption.
  - destruct Hin as [->|Hin]; [congruence|]. now apply IH.
Qed.

Lemma Forall2_In_r {A B : Type} (P : A -> B -> Prop) (l : list A) (l' : list B) (b : B) :
  Forall2 P l l' -> In b l' -> exists a, In a l /\ P a b.
Proof.
  induction 1 as [|a b' l l' HP _ IH]; intros Hin; [contradiction|].
  destruct Hin as [<-|Hin].
  - exists a. split; [now left|assumption].
  - destruct (IH Hin) as [a' [Ha' HP']]. exists a'. split; [now right|assumption].
Qed.

Lemma Forall2_In_l {A B : Type} (P : A -> B -> Prop) (l : list A) (l' : list B) (a : A) :
  Forall2 P l l' -> In a l -> exists b, In b l' /\ P a b.
Proof.
  induction 1 as [|a' b l l' HP _ IH]; intros Hin; [contradiction|].
  destruct Hin as [<-|Hin].
  - exists b. split; [now left|assumption].
  - destruct (IH Hin) as [b' [Hb' HP']]. exists b'. split; [now right|assumption].
Qed.

(** C4. When records of one host name are selected in a bucket, however
    many, the bucket's result holds exactly one entry for that host name;
    its value is [0.0 + t], where [t] is the integer core count of the
    first of those records in table order, and no other record of the host
    contributes. *)
Theorem duplicate_hosts_single_entry (df : DataFrame) (hour_start : Z)
  (hr : HourResult) (h : string) (r : ActivityRecord) :
  analyze_hour df hour_start = inr hr ->
  In r (active_records df hour_start) ->
  hostName r = h ->
  exists r0 t v,
    first_with_host h (active_records df hour_start) = Some r0
    /\ py_int (hostBillableCores r0) = inr t
    /\ py_add (PyFloat float_zero) (PyInt t) = inr v
    /\ filter (fun d => String.eqb (hostname d) h) (hostnames hr) = [mkDetail h v].
Proof.
  intros Hhr Hin Hname.
  destruct (first_with_host_exists h _ r Hin Hname) as [r0 Hfirst].
  pose proof (first_with_host_Some _ _ _ Hfirst) as [_ Hname0].
  assert (Hkept : In r0 (drop_duplicates (active_records df hour_start))).
  { apply drop_duplicates_In. now rewrite Hname0. }
  pose proof (hour_details df hour_start hr Hhr) as Hdetails.
  destruct (details_filter_single _ _ _ r0 Hdetails (drop_duplicates_NoDup _) Hkept)
    as [d0 [Hfilter [Hd0 [t [Hint Hadd]]]]].
  exists r0, t, (detail_hostBillableCores d0).
  rewrite Hname0 in Hfilter, Hd0. repeat split; try assumption.
  rewrite Hfilter. destruct d0 as [h0 v0]. simpl in *. now subst.
Qed.

(** C6. For every record that contributes to a bucket, the amount that
    enters the accumulation is an integer, made by [int] from the record's
    core count: the count itself when it is an int, and the count with its
    fraction discarded, rounded toward zero, when it is a float. *)
Theorem cores_coerced_before_accumulation (df : DataFrame) (hour_start : Z)
  (hr : HourResult) (r : ActivityRecord) :
  analyze_hour df hour_start = inr hr ->
  In r (drop_duplicates (active_records df hour_start)) ->
  exists t v,
    py_int (hostBillableCores r) = inr t
    /\ truncation (hostBillableCores r) t
    /\ dict_iadd [] (hostName r) t = inr [(hostName r, v)]
    /\ In (mkDetail (hostName r) v) (hostnames hr).
Proof.
  intros Hhr Hin.
  pose proof (hour_details df hour_start hr Hhr) as Hdetails.
  destruct (Forall2_In_l _ _ _ r Hdetails Hin) as [d [Hd [Hname [t [Hint Hadd]]]]].
  exists t, (detail_hostBillableCores d). split; [assumption|].
  split; [now apply py_int_truncation|]. split.
  - rewrite dict_iadd_fresh by reflexivity. now rewrite Hadd.
  - destruct d as [h0 v0]. simpl in *. now subst.
Qed.

Lemma duplicate_hosts_single_entry_witness :
  exists r0 t v,
    first_with_host "h" (active_records Sample.duplicates 0) = Some r0
    /\ py_int (hostBillableCores r0) = inr t
    /\ py_add (PyFloat float_zero) (PyInt t) = inr v
    /\ filter (fun d => String.eqb (hostname d) "h")
              (hostnames Sample.duplicates_first_hour)
       = [mkDetail "h" v].
Proof.
  apply (duplicate_hosts_single_entry Sample.duplicates 0
           Sample.duplicates_first_hour "h" Sample.h_second).
  - vm_compute. reflexivity.
  - vm_compute. right. now left.
  - reflexivity.
Defined.

Lemma cores_coerced_before_accumulation_witness :
  exists t v,
    py_int (hostBillableCores Sample.g_row) = inr t
    /\ truncation (hostBillableCores Sample.g_row) t
    /\ dict_iadd [] (hostName Sample.g_row) t = inr [(hostName Sample.g_row, v)]
    /\ In (mkDetail (hostName Sample.g_row) v)
          (hostnames Sample.duplicates_first_hour).
Proof.
  apply (cores_coerced_before_accumulation Sample.duplicates 0
           Sample.duplicates_first_hour Sample.g_row).
  - vm_compute. reflexivity.
  - vm_compute. right. now left.
Defined.




(** The number of hosts of an analysed hour is the number of distinct host
    names among its active records, whatever the core counts are. *)
Lemma hour_total_hostnames_distinct (df : DataFrame) (hour_start : Z) (hr : HourResult) :
  analyze_hour df hour_start = inr hr ->
  total_hostnames hr
  = Z.of_nat (List.length (nodup string_dec
                             (map hostName (active_records df hour_start)))).
Proof.
  intros Hhr. destruct (hour_total_hostnames _ _ _ Hhr) as [-> _].
  now rewrite drop_duplicates_length.
Qed.

(** ** The whole analysis and the detailed report *)

Lemma analyze_inr (df : DataFrame) (results : list HourResult) :
  analyze df = inr results
  <-> exists month_hours,
      generate_month_hours (month_start df) (month_end df) = inr month_hours
      /\ Forall2 (fun hour_start hr => analyze_hour df hour_start = inr hr)
                 month_hours results.
Proof.
  unfold analyze. split.
  - destruct (generate_month_hours _ _) as [e|month_hours]; [discriminate|].
    rewrite bind_inr. intros H. exists month_hours. split; [reflexivity|].
    now apply analyze_hours_inr.
  - intros [month_hours [-> H]]. rewrite bind_inr. now apply analyze_hours_inr.
Qed.

Lemma detailed_rows_cons (hr : HourResult) (results : list HourResult) :
  detailed_rows (hr :: results)
  = map (fun d => mkDetailedRow (hour hr) (day_of_month hr) (hour_of_day hr)
                    (hostname d) (detail_hostBillableCores d))
        (hostnames hr)
    ++ detailed_rows results.
Proof. reflexivity. Qed.

Lemma hour_labels (df : DataFrame) (hour_start : Z) (hr : HourResult) :
  analyze_hour df hour_start = inr hr ->
  hour hr = strftime_hour hour_start
  /\ map hostname (hostnames hr)
     = map hostName (drop_duplicates (active_records df hour_start)).
Proof.
  intros Hhr. split.
  - apply analyze_hour_inr in Hhr. destruct Hhr as [es [total [_ [_ [_ ->]]]]].
    reflexivity.
  - pose proof (hour_details _ _ _ Hhr) as Hd.
    induction Hd as [|r d rows ds [Hname _] _ IH]; simpl; [reflexivity|].
    now rewrite Hname, IH.
Qed.

(** A run on a loaded table returns what [analyze] returns, and on success
    writes the detailed and the summary file, in this order, from the same
    results. *)
Lemma analyze_vm_activity_loaded (read_csv : string -> Separator -> result DataFrame)
  (inputfile : string) (w : World) (df : DataFrame) :
  load read_csv inputfile = inr df ->
  snd (analyze_vm_activity read_csv inputfile w) = analyze df
  /\ forall results,
       analyze df = inr results ->
       files (fst (analyze_vm_activity read_csv inputfile w))
       = files w
         ++ [((inputfile ++ "_detailed.csv")%string, DetailedCsv (detailed_rows results));
             ((inputfile ++ "_summary.csv")%string, SummaryCsv (summary_rows results))].
Proof.
  intros Hload. unfold analyze_vm_activity, analyze. rewrite Hload.
  destruct (generate_month_hours (month_start df) (month_end df)) as [e|month_hours];
    [split; [reflexivity|discriminate]|].
  rewrite bind_inr.
  destruct (analyze_hours df month_hours) as [e|rs];
    [split; [reflexivity|discriminate]|].
  split; [reflexivity|]. intros results [= <-]. cbn. now rewrite <- app_assoc.
Qed.

(** C8, as the code has it.  The detailed report has one row per bucket
    and distinct active host name, in that order, and the
    [hostBillableCores] of a row is a float: [0.0 + t] for the integer core
    count [t] of the record retained for the host in the bucket, which
    holds [t] exactly as long as the magnitude of [t] is at most 2^53. *)
Theorem detailed_rows_hold_floats (df : DataFrame) (results : list HourResult) :
  analyze df = inr results ->
  exists month_hours,
    generate_month_hours (month_start df) (month_end df) = inr month_hours
    /\ map (fun row => (d_hour row, d_hostname row)) (detailed_rows results)
       = flat_map (fun hour_start =>
                     map (fun r => (strftime_hour hour_start, hostName r))
                         (drop_duplicates (active_records df hour_start)))
                  month_hours
    /\ Forall (fun row =>
                 exists hour_start r t g,
                   In hour_start month_hours
                   /\ In r (drop_duplicates (active_records df hour_start))
                   /\ d_hour row = strftime_hour hour_start
                   /\ d_hostname row = hostName r
                   /\ py_int (hostBillableCores r) = inr t
                   /\ py_add (PyFloat float_zero) (PyInt t) = inr (PyFloat g)
                   /\ d_hostBillableCores row = PyFloat g
                   /\ is_int (d_hostBillableCores row) = false
                   /\ (Z.abs t <= exact_bound -> represents g t))
              (detailed_rows results).
Proof.
  intros Hres. apply analyze_inr in Hres. destruct Hres as [month_hours [Hgen Hall]].
  exists month_hours. split; [assumption|]. clear Hgen. split.
  - induction Hall as [|hs hr month_hours results Hhr _ IH]; [reflexivity|].
    rewrite detailed_rows_cons, map_app, IH. cbn [flat_map]. f_equal.
    destruct (hour_labels _ _ _ Hhr) as [Hlabel Hnames].
    rewrite map_map. cbn [d_hour d_hostname]. rewrite Hlabel.
    rewrite <- (map_map hostname (fun h => (strftime_hour hs, h))), Hnames.
    now rewrite map_map.
  - apply Forall_forall. intros row Hrow.
    unfold detailed_rows in Hrow. apply in_flat_map in Hrow.
    destruct Hrow as [hr [Hhr Hrow]]. apply in_map_iff in Hrow.
    destruct Hrow as [d [<- Hd]]. cbn [d_hour d_hostname d_hostBillableCores].
    destruct (Forall2_In_r _ _ _ hr Hall Hhr) as [hs [Hhs Hhour]].
    pose proof (hour_details _ _ _ Hhour) as Hdetails.
    destruct (Forall2_In_r _ _ _ d Hdetails Hd) as [r [Hr [Hname [t [Hint Hadd]]]]].
    destruct (hour_labels _ _ _ Hhour) as [Hlabel _].
    destruct (first_contribution_is_float t _ Hadd) as [g Hg].
    exists hs, r, t, g. rewrite Hg in Hadd |- *.
    repeat split; try assumption.
    intros Ht. destruct (first_contribution_exact t Ht) as [g' [Hadd' [_ Hrep]]].
    congruence.
Qed.

Lemma detailed_rows_hold_floats_witness :
  exists month_hours,
    generate_month_hours (month_start Sample.scenario) (month_end Sample.scenario)
    = inr month_hours
    /\ map (fun row => (d_hour row, d_hostname row))
           (detailed_rows
              [mkHourResult "2024-01-01 00:00:00 UTC" 1 0 2 6
                 [mkDetail "h1" (PyFloat Sample.f4); mkDetail "h2" (PyFloat Sample.f2)];
               mkHourResult "2024-01-01 01:00:00 UTC" 1 1 1 4
                 [mkDetail "h1" (PyFloat Sample.f4)]])
       = flat_map (fun hour_start =>
                     map (fun r => (strftime_hour hour_start, hostName r))
                         (drop_duplicates (active_records Sample.scenario hour_start)))
                  month_hours
    /\ Forall (fun row =>
                 exists hour_start r t g,
                   In hour_start month_hours
                   /\ In r (drop_duplicates (active_records Sample.scenario hour_start))
                   /\ d_hour row = strftime_hour hour_start
                   /\ d_hostname row = hostName r
                   /\ py_int (hostBillableCores r) = inr t
                   /\ py_add (PyFloat float_zero) (PyInt t) = inr (PyFloat g)
                   /\ d_hostBillableCores row = PyFloat g
                   /\ is_int (d_hostBillableCores row) = false
                   /\ (Z.abs t <= exact_bound -> represents g t))
              (detailed_rows
                 [mkHourResult "2024-01-01 00:00:00 UTC" 1 0 2 6
                    [mkDetail "h1" (PyFloat Sample.f4); mkDetail "h2" (PyFloat Sample.f2)];
                  mkHourResult "2024-01-01 01:00:00 UTC" 1 1 1 4
                    [mkDetail "h1" (PyFloat Sample.f4)]]).
Proof.
  apply (detailed_rows_hold_floats Sample.scenario). vm_compute. reflexivity.
Defined.

(** C8, as stated, fails on the two rows of the end-to-end scenario: none
    of the three [hostBillableCores] values of the detailed report is an
    int; they are the floats 4.0, 2.0 and 4.0. *)
Lemma detailed_cores_not_int :
  exists results,
    analyze Sample.scenario = inr results
    /\ map d_hostBillableCores (detailed_rows results)
       = [PyFloat Sample.f4; PyFloat Sample.f2; PyFloat Sample.f4]
    /\ existsb is_int (map d_hostBillableCores (detailed_rows results)) = false.
Proof.
  eexists. split; [vm_compute; reflexivity|]. split; reflexivity.
Qed.

(** ** Loading *)

(** C7. When the loaded table has no rows the analysis returns the empty
    list of hour results without raising, and the detailed and the summary
    file are both written with no data rows. *)
Theorem empty_input_empty_reports (read_csv : string -> Separator -> result DataFrame)
  (inputfile : string) (w : World) :
  load read_csv inputfile = inr [] ->
  analyze [] = inr []
  /\ snd (analyze_vm_activity read_csv inputfile w) = inr []
  /\ files (fst (analyze_vm_activity read_csv inputfile w))
     = files w ++ [((inputfile ++ "_detailed.csv")%string, DetailedCsv []);
                   ((inputfile ++ "_summary.csv")%string, SummaryCsv [])].
Proof.
  intros Hload. unfold analyze_vm_activity. rewrite Hload.
  split; [reflexivity|]. split; [reflexivity|].
  cbn. now rewrite <- app_assoc.
Qed.

Lemma empty_input_empty_reports_witness :
  analyze [] = inr []
  /\ snd (analyze_vm_activity Sample.header_only "./data.tsv" empty_world) = inr []
  /\ files (fst (analyze_vm_activity Sample.header_only "./data.tsv" empty_world))
     = files empty_world
       ++ [(("./data.tsv" ++ "_detailed.csv")%string, DetailedCsv []);
           (("./data.tsv" ++ "_summary.csv")%string, SummaryCsv [])].
Proof.
  apply (empty_input_empty_reports Sample.header_only "./data.tsv" empty_world).
  reflexivity.
Defined.

(** C9. When [read_csv] raises under the tab, the space and the comma
    separator, the run stops there: the exception of the last attempt is
    printed after the text "Error reading file: ", nothing else is printed,
    no file is written, and the function returns the empty list. *)
Theorem unreadable_input_aborts (read_csv : string -> Separator -> result DataFrame)
  (inputfile : string) (w : World) (e_tab e_space e_comma : Exception) :
  read_csv inputfile SepTab = inl e_tab ->
  read_csv inputfile SepSpace = inl e_space ->
  read_csv inputfile SepComma = inl e_comma ->
  load read_csv inputfile = inl e_comma
  /\ analyze_vm_activity read_csv inputfile w
     = (print w ("Error reading file: " ++ exception_message e_comma), inr [])
  /\ files (fst (analyze_vm_activity read_csv inputfile w)) = files w
  /\ console (fst (analyze_vm_activity read_csv inputfile w))
     = console w ++ [("Error reading file: " ++ exception_message e_comma)%string].
Proof.
  intros Htab Hspace Hcomma.
  assert (Hload : load read_csv inputfile = inl e_comma).
  { unfold load. now rewrite Htab, Hspace. }
  unfold analyze_vm_activity. rewrite Hload. repeat split.
Qed.

Lemma unreadable_input_aborts_witness :
  load Sample.unreadable "./data.tsv" = inl (ReadError "No columns to parse from file")
  /\ analyze_vm_activity Sample.unreadable "./data.tsv" empty_world
     = (print empty_world
          ("Error reading file: "
           ++ exception_message (ReadError "No columns to parse from file")),
        inr [])
  /\ files (fst (analyze_vm_activity Sample.unreadable "./data.tsv" empty_world))
     = files empty_world
  /\ console (fst (analyze_vm_activity Sample.unreadable "./data.tsv" empty_world))
     = console empty_world
       ++ [("Error reading file: "
            ++ exception_message (ReadError "No columns to parse from file"))%string].
Proof.
  apply (unreadable_input_aborts Sample.unreadable "./data.tsv" empty_world
           (ReadError "tab") (ReadError "space")
           (ReadError "No columns to parse from file")); reflexivity.
Defined.

(** The first success wins: a table read under an earlier separator is the
    one analysed, and the later separators are not tried. *)
Lemma load_first_success (read_csv : string -> Separator -> result DataFrame)
  (inputfile : string) (df : DataFrame) :
  read_csv inputfile SepTab = inr df -> load read_csv inputfile = inr df.
Proof. intros H. unfold load. now rewrite H. Qed.

(** ** The end-to-end scenario *)

Example scenario_results :
  analyze Sample.scenario
  = inr [mkHourResult "2024-01-01 00:00:00 UTC" 1 0 2 6
           [mkDetail "h1" (PyFloat Sample.f4); mkDetail "h2" (PyFloat Sample.f2)];
         mkHourResult "2024-01-01 01:00:00 UTC" 1 1 1 4
           [mkDetail "h1" (PyFloat Sample.f4)]].
Proof. vm_compute. reflexivity. Qed.

Example float_of_int_rounds :
  float_of_int 9007199254740993 = inr (S754_finite false 4503599627370496 1)
  /\ int_of_float (S754_finite false 4503599627370496 1) = inr 9007199254740992.
Proof. split; reflexivity. Qed.

Example int_truncates_toward_zero :
  py_int (PyFloat Sample.f4_5) = inr 4
  /\ py_int (PyFloat (SFopp Sample.f4_5)) = inr (-4).
Proof. split; reflexivity. Qed.

(** * Further properties of the script *)

(** ** The hosts listed for an hour *)

Lemma hostnames_member (df : DataFrame) (hour_start : Z) (hr : HourResult) :
  analyze_hour df hour_start = inr hr ->
  forall h,
    In h (map hostname (hostnames hr))
    <-> exists r, In r df /\ hostName r = h
                  /\ startTime r < hour_start + one_hour
                  /\ endTime r > hour_start.
Proof.
  intros Hhr h. destruct (hour_labels _ _ _ Hhr) as [_ Hnames].
  rewrite Hnames, drop_duplicates_names, in_map_iff. split.
  - intros [r [Hname Hr]]. apply active_records_iff in Hr. exists r. tauto.
  - intros [r [Hr [Hname Hov]]]. exists r. split; [assumption|].
    apply active_records_iff. tauto.
Qed.

(** X1. The hosts listed for an analysed hour are exactly the hosts that
    have a record overlapping the hour, each listed once, and
    [total_hostnames] is the number of entries listed. *)
Theorem hour_hostnames_listing (df : DataFrame) (hour_start : Z) (hr : HourResult) :
  analyze_hour df hour_start = inr hr ->
  NoDup (map hostname (hostnames hr))
  /\ total_hostnames hr = Z.of_nat (List.length (hostnames hr))
  /\ forall h,
       In h (map hostname (hostnames hr))
       <-> exists r, In r df /\ hostName r = h
                     /\ startTime r < hour_start + one_hour
                     /\ endTime r > hour_start.
Proof.
  intros Hhr. destruct (hour_labels _ _ _ Hhr) as [_ Hnames].
  destruct (hour_total_hostnames _ _ _ Hhr) as [Htotal Hlen].
  split; [rewrite Hnames; apply drop_duplicates_NoDup|]. split; [congruence|].
  now apply hostnames_member.
Qed.

Lemma hour_hostnames_listing_witness :
  NoDup (map hostname (hostnames Sample.duplicates_first_hour))
  /\ total_hostnames Sample.duplicates_first_hour
     = Z.of_nat (List.length (hostnames Sample.duplicates_first_hour))
  /\ forall h,
       In h (map hostname (hostnames Sample.duplicates_first_hour))
       <-> exists r, In r Sample.duplicates /\ hostName r = h
                     /\ startTime r < 0 + one_hour
                     /\ endTime r > 0.
Proof.
  apply (hour_hostnames_listing Sample.duplicates 0 Sample.duplicates_first_hour).
  vm_compute. reflexivity.
Defined.

(** An hour that no record overlaps is analysed without error: no host,
    zero hosts and zero cores under the labels of the hour. *)
Lemma analyze_hour_idle (df : DataFrame) (hour_start : Z) :
  (forall r, In r df ->
             hour_start + one_hour <= startTime r \/ endTime r <= hour_start) ->
  analyze_hour df hour_start
  = inr {| hour := strftime_hour hour_start;
           day_of_month := day_of hour_start;
           hour_of_day := hour_of hour_start;
           total_hostnames := 0;
           total_hostBillableCores := 0;
           hostnames := [] |}.
Proof.
  intros Hidle.
  assert (Hnone : active_records df hour_start = []).
  { destruct (active_records df hour_start) as [|r rows] eqn:Hact; [reflexivity|].
    assert (Hin : In r (active_records df hour_start)) by (rewrite Hact; now left).
    apply active_records_iff in Hin. destruct Hin as [Hr Hov].
    specialize (Hidle r Hr). lia. }
  unfold analyze_hour. rewrite Hnone. reflexivity.
Qed.

Lemma Forall2_nth_error_l {A B : Type} (P : A -> B -> Prop) (l : list A) (l' : list B) :
  Forall2 P l l' ->
  forall i a, nth_error l i = Some a -> exists b, nth_error l' i = Some b /\ P a b.
Proof.
  induction 1 as [|a' b l l' HP _ IH]; intros i a Hnth.
  - destruct i; discriminate.
  - destruct i as [|i]; simpl in *.
    + injection Hnth as <-. eauto.
    + now apply IH.
Qed.

(** X2. An enumerated hour that no record overlaps is not skipped: when the
    analysis succeeds, the results hold, at the position of the hour, a
    result with the hour's labels, zero hosts, zero cores and no host
    entry, and the summary report holds the matching row at that
    position. *)
Theorem idle_hour_zero_row (df : DataFrame) (month_hours : list Z)
  (results : list HourResult) (i : nat) (hour_start : Z) :
  generate_month_hours (month_start df) (month_end df) = inr month_hours ->
  analyze df = inr results ->
  nth_error month_hours i = Some hour_start ->
  (forall r, In r df ->
             hour_start + one_hour <= startTime r \/ endTime r <= hour_start) ->
  nth_error results i
  = Some {| hour := strftime_hour hour_start;
            day_of_month := day_of hour_start;
            hour_of_day := hour_of hour_start;
            total_hostnames := 0;
            total_hostBillableCores := 0;
            hostnames := [] |}
  /\ nth_error (summary_rows results) i
     = Some (mkSummaryRow (strftime_hour hour_start) (day_of hour_start)
               (hour_of hour_start) 0 0)
  /\ List.length results = List.length month_hours.
Proof.
  intros Hgen Hres Hnth Hidle.
  apply analyze_inr in Hres. destruct Hres as [month_hours' [Hgen' Hall]].
  assert (month_hours' = month_hours) by congruence. subst month_hours'.
  destruct (Forall2_nth_error_l _ _ _ Hall _ _ Hnth) as [hr [Hhr Hhour]].
  rewrite (analyze_hour_idle df hour_start Hidle) in Hhour.
  injection Hhour as <-. split; [assumption|]. split.
  - unfold summary_rows. rewrite nth_error_map, Hhr. reflexivity.
  - symmetry. now apply Forall2_length in Hall.
Qed.

Lemma idle_hour_zero_row_witness :
  nth_error Sample.gapped_hours 1
  = Some {| hour := strftime_hour one_hour;
            day_of_month := day_of one_hour;
            hour_of_day := hour_of one_hour;
            total_hostnames := 0;
            total_hostBillableCores := 0;
            hostnames := [] |}
  /\ nth_error (summary_rows Sample.gapped_hours) 1
     = Some (mkSummaryRow (strftime_hour one_hour) (day_of one_hour)
               (hour_of one_hour) 0 0)
  /\ List.length Sample.gapped_hours = List.length [0; one_hour; 2 * one_hour].
Proof.
  apply (idle_hour_zero_row Sample.gapped [0; one_hour; 2 * one_hour]
           Sample.gapped_hours 1 one_hour).
  - reflexivity.
  - vm_compute. reflexivity.
  - reflexivity.
  - intros r [<-|[<-|[]]]; vm_compute; [right|left]; discriminate.
Defined.

(** X3. The summary report has one row per enumerated hour, in the order
    of the hours and with the labels of the hour's start, and the number of
    rows of the detailed report is the sum of the [total_hosts] column of
    the summary report. *)
Theorem report_row_counts (df : DataFrame) (results : list HourResult) :
  analyze df = inr results ->
  exists month_hours,
    generate_month_hours (month_start df) (month_end df) = inr month_hours
    /\ map s_hour (summary_rows results) = map strftime_hour month_hours
    /\ map s_hour_of_day (summary_rows results) = map hour_of month_hours
    /\ map s_day_of_month (summary_rows results) = map day_of month_hours
    /\ Z.of_nat (List.length (detailed_rows results))
       = Zsum (map s_total_hosts (summary_rows results)).
Proof.
  intros Hres. apply analyze_inr in Hres. destruct Hres as [month_hours [Hgen Hall]].
  exists month_hours. split; [assumption|]. clear Hgen.
  induction Hall as [|hs hr month_hours results Hhr _ [IH1 [IH2 [IH3 IH4]]]].
  - repeat split.
  - destruct (hour_total_hostnames _ _ _ Hhr) as [Htotal Hlen].
    apply analyze_hour_inr in Hhr. destruct Hhr as [es [total [_ [_ [_ Heq]]]]].
    cbn [summary_rows map] in *. fold (summary_rows results) in *.
    rewrite IH1, IH2, IH3. rewrite detailed_rows_cons, length_app, length_map.
    rewrite Nat2Z.inj_add, IH4. cbn [Zsum fold_right map].
    cbn [s_hour s_hour_of_day s_day_of_month s_total_hosts].
    rewrite Htotal, <- Hlen. rewrite Heq at 1 2 3. cbn [hour hour_of_day day_of_month].
    repeat split.
Qed.

Lemma run_failure_writes_nothing
  (read_csv : string -> Separator -> result DataFrame) (inputfile : string)
  (w : World) (e : Exception) :
  snd (analyze_vm_activity read_csv inputfile w) = inl e ->
  files (fst (analyze_vm_activity read_csv inputfile w)) = files w.
Proof.
  unfold analyze_vm_activity.
  destruct (load read_csv inputfile) as [e0|df]; [reflexivity|].
  destruct (generate_month_hours (month_start df) (month_end df)) as [e0|month_hours];
    [reflexivity|].
  destruct (analyze_hours df month_hours) as [e0|results]; [reflexivity|].
  discriminate.
Qed.

(** X6. No file is written before the whole analysis has succeeded, and
    the two writers are then called in a fixed order.  If the function ends
    in an exception, or the input cannot be read, no [to_csv] call is made.
    If the table loads and the function returns results, exactly two calls
    are made: first for the detailed file, then for the summary file, each
    named after the input file and built from the returned results.  (The
    calls themselves are taken to succeed.) *)
Theorem files_written_only_on_success
  (read_csv : string -> Separator -> result DataFrame) (inputfile : string) (w : World) :
  (forall e, snd (analyze_vm_activity read_csv inputfile w) = inl e ->
             files (fst (analyze_vm_activity read_csv inputfile w)) = files w)
  /\ (forall e, load read_csv inputfile = inl e ->
                files (fst (analyze_vm_activity read_csv inputfile w)) = files w)
  /\ (forall df results,
        load read_csv inputfile = inr df ->
        snd (analyze_vm_activity read_csv inputfile w) = inr results ->
        analyze df = inr results
        /\ files (fst (analyze_vm_activity read_csv inputfile w))
           = files w
             ++ [((inputfile ++ "_detailed.csv")%string,
                  DetailedCsv (detailed_rows results));
                 ((inputfile ++ "_summary.csv")%string,
                  SummaryCsv (summary_rows results))]).
Proof.
  split; [intros e; apply run_failure_writes_nothing|]. split.
  - intros e Hload. unfold analyze_vm_activity. now rewrite Hload.
  - intros df results Hload Hret.
    destruct (analyze_vm_activity_loaded read_csv inputfile w df Hload)
      as [Hsame Hfiles].
    rewrite Hsame in Hret. split; [assumption|]. now apply Hfiles.
Qed.

(** X5. An integer core count of magnitude at most 2^53 that is added
    into an empty [activehosts] is stored under its key as a float, and
    [int] gives the count back. *)
Theorem accumulated_value_round_trip (k : string) (t : Z) :
  Z.abs t <= exact_bound ->
  exists v, dict_iadd [] k t = inr [(k, v)]
            /\ is_int v = false
            /\ py_int v = inr t.
Proof.
  intros Ht. destruct (first_contribution_exact t Ht) as [g [Hadd [_ Hrep]]].
  exists (PyFloat g). rewrite dict_iadd_fresh by reflexivity. rewrite Hadd.
  split; [reflexivity|]. split; [reflexivity|].
  now apply int_of_float_represents.
Qed.

Lemma accumulated_value_round_trip_witness :
  exists v, dict_iadd [] "h" 4 = inr [("h"%string, v)]
            /\ is_int v = false
            /\ py_int v = inr 4.
Proof.
  apply (accumulated_value_round_trip "h" 4). vm_compute. discriminate.
Defined.

Lemma mapM_functional {A B : Type} (f : A -> result B) (l : list A) (x y : list B) :
  mapM f l = inr x -> mapM f l = inr y -> x = y.
Proof. congruence. Qed.

Lemma details_coerce_back (es : list (string * pyval)) (ts : list Z) :
  Forall2 (fun v t => exists g, v = PyFloat g /\ represents g t) (map snd es) ts ->
  mapM py_int (map detail_hostBillableCores
                   (map (fun kv => mkDetail (fst kv) (snd kv)) es)) = inr ts.
Proof.
  rewrite map_map. cbn [detail_hostBillableCores]. intros Hall.
  apply mapM_inr. eapply Forall2_impl; [|exact Hall].
  intros v t [g [-> Hg]]. now apply int_of_float_represents.
Qed.

(** Within the exact range the per-host values of an hour convert back to
    the integer core counts of the hour's retained records, and the hour's
    total is their sum. *)
Lemma hour_details_sum (df : DataFrame) (hour_start : Z)
  (hr : HourResult) (ts : list Z) :
  analyze_hour df hour_start = inr hr ->
  mapM py_int (map hostBillableCores
                   (drop_duplicates (active_records df hour_start))) = inr ts ->
  Zsum (map Z.abs ts) <= exact_bound ->
  mapM py_int (map detail_hostBillableCores (hostnames hr)) = inr ts
  /\ total_hostBillableCores hr = Zsum ts.
Proof.
  intros Hhr Hts Hbound.
  destruct (mapM_cores_entry_exact _ ts Hts (Zsum_abs_bound ts _ Hbound))
    as [es [Hes Hrep]].
  destruct (py_sum_exact _ ts Hrep Hbound) as [total [Hsum Hint]].
  apply analyze_hour_inr in Hhr.
  destruct Hhr as [es' [total' [Hes' [Hsum' [Hint' Heq]]]]].
  assert (es' = es) by congruence. subst es'.
  assert (total' = total) by congruence. subst total'.
  split.
  - rewrite Heq. cbn [hostnames]. now apply details_coerce_back.
  - congruence.
Qed.

Lemma coerce_filter (p : ActivityRecord -> bool) (rows : DataFrame) :
  forall ts, mapM py_int (map hostBillableCores rows) = inr ts ->
    exists ts', mapM py_int (map hostBillableCores (filter p rows)) = inr ts'
                /\ Zsum (map Z.abs ts') <= Zsum (map Z.abs ts).
Proof.
  induction rows as [|r rows IH]; intros ts Hts; cbn [map mapM filter] in *.
  - injection Hts as <-. exists []. split; [reflexivity|]. simpl. lia.
  - destruct (py_int (hostBillableCores r)) as [e|t] eqn:Hint; [discriminate|].
    rewrite bind_inr in Hts.
    destruct (mapM py_int (map hostBillableCores rows)) as [e|ts0]; [discriminate|].
    rewrite bind_inr in Hts. injection Hts as <-.
    destruct (IH ts0 eq_refl) as [ts' [Hts' Hle]].
    cbn [map Zsum fold_right]. fold (Zsum (map Z.abs ts0)).
    destruct (p r).
    + exists (t :: ts'). cbn [map mapM]. rewrite Hint, bind_inr, Hts', bind_inr.
      split; [reflexivity|]. cbn [map Zsum fold_right]. fold (Zsum (map Z.abs ts')). lia.
    + exists ts'. split; [assumption|]. lia.
Qed.

Lemma coerce_drop_duplicates (rows : DataFrame) :
  forall seen ts, mapM py_int (map hostBillableCores rows) = inr ts ->
    exists ts', mapM py_int (map hostBillableCores (drop_duplicates_seen seen rows))
                = inr ts'
                /\ Zsum (map Z.abs ts') <= Zsum (map Z.abs ts).
Proof.
  induction rows as [|r rows IH]; intros seen ts Hts;
    cbn [map mapM drop_duplicates_seen] in *.
  - injection Hts as <-. exists []. split; [reflexivity|]. simpl. lia.
  - destruct (py_int (hostBillableCores r)) as [e|t] eqn:Hint; [discriminate|].
    rewrite bind_inr in Hts.
    destruct (mapM py_int (map hostBillableCores rows)) as [e|ts0]; [discriminate|].
    rewrite bind_inr in Hts. injection Hts as <-.
    cbn [map Zsum fold_right]. fold (Zsum (map Z.abs ts0)).
    destruct (existsb (String.eqb (hostName r)) seen).
    + destruct (IH seen ts0 eq_refl) as [ts' [Hts' Hle]].
      exists ts'. split; [assumption|]. lia.
    + destruct (IH (hostName r :: seen) ts0 eq_refl) as [ts' [Hts' Hle]].
      exists (t :: ts'). cbn [map mapM]. rewrite Hint, bind_inr, Hts', bind_inr.
      split; [reflexivity|]. cbn [map Zsum fold_right]. fold (Zsum (map Z.abs ts')). lia.
Qed.

(** X4. On a table whose core counts all convert, with magnitudes that add
    up to at most 2^53, the two reports agree hour by hour: the detailed
    report is the concatenation of one group of rows per summary row, in
    the order of the summary; the rows of a group carry the summary row's
    hour label, their number is the row's [total_hosts], and [int] of their
    [hostBillableCores] values adds up to the row's
    [total_hostBillableCores]. *)
Theorem summary_total_matches_details (df : DataFrame) (results : list HourResult)
  (ts : list Z) :
  mapM py_int (map hostBillableCores df) = inr ts ->
  Zsum (map Z.abs ts) <= exact_bound ->
  analyze df = inr results ->
  exists groups : list (list DetailedRow),
    detailed_rows results = List.concat groups
    /\ Forall2 (fun srow group =>
                  Forall (fun row => d_hour row = s_hour srow) group
                  /\ Z.of_nat (List.length group) = s_total_hosts srow
                  /\ exists vs,
                       mapM py_int (map d_hostBillableCores group) = inr vs
                       /\ s_total_hostBillableCores srow = Zsum vs)
               (summary_rows results) groups.
Proof.
  intros Hts Hbound Hres.
  apply analyze_inr in Hres. destruct Hres as [month_hours [_ Hall]].
  exists (map (fun hr =>
                 map (fun d => mkDetailedRow (hour hr) (day_of_month hr)
                                 (hour_of_day hr) (hostname d)
                                 (detail_hostBillableCores d))
                     (hostnames hr))
              results).
  split; [apply flat_map_concat_map|].
  unfold summary_rows.
  induction Hall as [|hs hr month_hours results Hhr _ IH]; cbn [map];
    constructor; [|exact IH].
  cbn [s_hour s_total_hosts s_total_hostBillableCores]. split; [|split].
  - apply Forall_forall. intros row Hrow. apply in_map_iff in Hrow.
    destruct Hrow as [d [<- _]]. reflexivity.
  - rewrite length_map. destruct (hour_total_hostnames _ _ _ Hhr) as [-> Hlen].
    now rewrite Hlen.
  - destruct (coerce_filter (is_active hs) df ts Hts) as [ts1 [Hts1 Hle1]].
    destruct (coerce_drop_duplicates _ [] ts1 Hts1) as [ts2 [Hts2 Hle2]].
    destruct (hour_details_sum df hs hr ts2 Hhr Hts2 ltac:(lia)) as [Hback Htotal].
    exists ts2. split; [|assumption].
    rewrite map_map. cbn [d_hostBillableCores]. exact Hback.
Qed.

Lemma summary_total_matches_details_witness :
  exists groups : list (list DetailedRow),
    detailed_rows Sample.scenario_hours = List.concat groups
    /\ Forall2 (fun srow group =>
                  Forall (fun row => d_hour row = s_hour srow) group
                  /\ Z.of_nat (List.length group) = s_total_hosts srow
                  /\ exists vs,
                       mapM py_int (map d_hostBillableCores group) = inr vs
                       /\ s_total_hostBillableCores srow = Zsum vs)
               (summary_rows Sample.scenario_hours) groups.
Proof.
  apply (summary_total_matches_details Sample.scenario Sample.scenario_hours [4; 2]).
  - vm_compute. reflexivity.
  - vm_compute. discriminate.
  - vm_compute. reflexivity.
Defined.

(** ** Which buckets see a record *)

Lemma In_generated_hours (df : DataFrame) (s e : Z) (hs : Z) :
  month_start df = Some s -> month_end df = Some e ->
  (exists i, hs = nth_bucket s i /\ hs < e) ->
  exists month_hours,
    generate_month_hours (month_start df) (month_end df) = inr month_hours
    /\ In hs month_hours.
Proof.
  intros Hs He [i [-> Hlt]]. rewrite Hs, He, generate_month_hours_eq.
  eexists. split; [reflexivity|].
  apply in_map. apply in_seq. apply bucket_count_iff in Hlt. lia.
Qed.

(** X7. No host with a record of positive duration is lost: when the
    analysis succeeds, the detailed report has a row for the host of every
    such record. *)
Theorem every_record_reported (df : DataFrame) (results : list HourResult)
  (r : ActivityRecord) :
  analyze df = inr results ->
  In r df ->
  startTime r < endTime r ->
  exists row, In row (detailed_rows results) /\ d_hostname row = hostName r.
Proof.
  intros Hres Hr Hpos.
  assert (Hne : df <> []) by (intros ->; inversion Hr).
  destruct (month_start_spec df Hne) as [s [Hs [_ Hmin]]].
  destruct (month_end_spec df Hne) as [e [He [_ Hmax]]].
  pose proof one_hour_pos as Hh.
  specialize (Hmin r Hr). specialize (Hmax r Hr).
  set (q := (startTime r - s) / one_hour).
  pose proof (Z.div_mod (startTime r - s) one_hour ltac:(lia)) as Hdm.
  pose proof (Z.mod_pos_bound (startTime r - s) one_hour Hh) as Hm.
  assert (Hq : 0 <= q) by (apply Z.div_pos; lia).
  fold q in Hdm.
  assert (Hbucket : exists i, s + q * one_hour = nth_bucket s i /\ s + q * one_hour < e).
  { exists (Z.to_nat q). unfold nth_bucket. rewrite Z2Nat.id by lia. split; lia. }
  destruct (In_generated_hours df s e _ Hs He Hbucket) as [month_hours [Hgen Hin]].
  apply analyze_inr in Hres. destruct Hres as [month_hours' [Hgen' Hall]].
  assert (month_hours' = month_hours) by congruence. subst month_hours'.
  destruct (Forall2_In_l _ _ _ _ Hall Hin) as [hr [Hhr Hhour]].
  destruct (hostnames_member df (s + q * one_hour) hr Hhour (hostName r))
    as [_ Hlisted].
  assert (Hd : In (hostName r) (map hostname (hostnames hr))).
  { apply Hlisted. exists r. repeat split; try assumption; lia. }
  apply in_map_iff in Hd. destruct Hd as [d [Hname Hd]].
  exists (mkDetailedRow (hour hr) (day_of_month hr) (hour_of_day hr)
            (hostname d) (detail_hostBillableCores d)).
  split; [|assumption].
  unfold detailed_rows. apply in_flat_map. exists hr. split; [assumption|].
  apply in_map_iff. exists d. now split.
Qed.

Lemma generated_hours_nth (df : DataFrame) (month_hours : list Z) (i : nat) (h : Z) :
  generate_month_hours (month_start df) (month_end df) = inr month_hours ->
  nth_error month_hours i = Some h ->
  exists s, month_start df = Some s /\ h = nth_bucket s i.
Proof.
  intros Hgen Hnth.
  destruct (month_start df) as [s|] eqn:Hs.
  - destruct (month_end df) as [e|] eqn:He.
    + rewrite generate_month_hours_eq in Hgen. injection Hgen as <-.
      apply nth_error_buckets in Hnth. exists s. tauto.
    + injection Hgen as <-. destruct i; discriminate.
  - rewrite generate_month_hours_NaT in Hgen. injection Hgen as <-.
    destruct i; discriminate.
Qed.

(** X8. A record whose end is not after its start is selected in at most
    one bucket, and only in a bucket that starts before the record's end
    and ends after its start. *)
Theorem degenerate_record_single_bucket (df : DataFrame) (r : ActivityRecord)
  (month_hours : list Z) (i j : nat) (hi hj : Z) :
  endTime r <= startTime r ->
  generate_month_hours (month_start df) (month_end df) = inr month_hours ->
  nth_error month_hours i = Some hi ->
  nth_error month_hours j = Some hj ->
  In r (active_records df hi) ->
  In r (active_records df hj) ->
  i = j /\ hi < endTime r /\ startTime r < hi + one_hour.
Proof.
  intros Hdeg Hgen Hi Hj Hai Haj.
  apply active_records_iff in Hai. apply active_records_iff in Haj.
  destruct (generated_hours_nth _ _ _ _ Hgen Hi) as [s [Hs ->]].
  destruct (generated_hours_nth _ _ _ _ Hgen Hj) as [s' [Hs' ->]].
  assert (s' = s) by congruence. subst s'.
  unfold nth_bucket in *. pose proof one_hour_pos.
  split; [|lia].
  destruct (Nat.lt_trichotomy i j) as [Hlt|[Heq|Hgt]]; [|assumption|]; nia.
Qed.

(** ** Failures of the core count conversion *)

(** X10. When [int] raises on the core count of a record that survives
    the removal of duplicates in some enumerated hour, the run ends in an
    exception and writes no file. *)
Theorem bad_core_count_aborts (read_csv : string -> Separator -> result DataFrame)
  (inputfile : string) (w : World) (df : DataFrame) (month_hours : list Z)
  (hour_start : Z) (r : ActivityRecord) (e : Exception) :
  load read_csv inputfile = inr df ->
  generate_month_hours (month_start df) (month_end df) = inr month_hours ->
  In hour_start month_hours ->
  In r (drop_duplicates (active_records df hour_start)) ->
  py_int (hostBillableCores r) = inl e ->
  (exists e', snd (analyze_vm_activity read_csv inputfile w) = inl e')
  /\ files (fst (analyze_vm_activity read_csv inputfile w)) = files w.
Proof.
  intros Hload Hgen Hhs Hr Hbad.
  destruct (analyze_vm_activity_loaded read_csv inputfile w df Hload) as [Hret _].
  assert (Hfail : exists e', analyze df = inl e').
  { destruct (analyze df) as [e'|results] eqn:Hres; [eauto|]. exfalso.
    apply analyze_inr in Hres. destruct Hres as [month_hours' [Hgen' Hall]].
    assert (month_hours' = month_hours) by congruence. subst month_hours'.
    destruct (Forall2_In_l _ _ _ _ Hall Hhs) as [hr [_ Hhour]].
    pose proof (hour_details _ _ _ Hhour) as Hdetails.
    destruct (Forall2_In_l _ _ _ _ Hdetails Hr) as [d [_ [_ [t [Hint _]]]]].
    congruence. }
  destruct Hfail as [e' He']. split.
  - exists e'. congruence.
  - apply (run_failure_writes_nothing read_csv inputfile w e'). congruence.
Qed.

(** ** Tables whose core counts all convert *)

Lemma analyze_hour_succeeds (df : DataFrame) (hour_start : Z) (ts : list Z) :
  mapM py_int (map hostBillableCores
                   (drop_duplicates (active_records df hour_start))) = inr ts ->
  Zsum (map Z.abs ts) <= exact_bound ->
  exists hr, analyze_hour df hour_start = inr hr
             /\ total_hostBillableCores hr = Zsum ts.
Proof.
  intros Hts Hbound.
  destruct (mapM_cores_entry_exact _ ts Hts (Zsum_abs_bound ts _ Hbound))
    as [es [Hes Hrep]].
  destruct (py_sum_exact _ ts Hrep Hbound) as [total [Hsum Hint]].
  exists {| hour := strftime_hour hour_start;
            day_of_month := day_of hour_start;
            hour_of_day := hour_of hour_start;
            total_hostnames := Z.of_nat (List.length es);
            total_hostBillableCores := Zsum ts;
            hostnames := map (fun kv => mkDetail (fst kv) (snd kv)) es |}.
  split; [|reflexivity]. apply analyze_hour_inr. exists es, total. auto.
Qed.

Lemma analyze_hours_succeed (df : DataFrame) (month_hours : list Z) :
  (forall hour_start, exists hr, analyze_hour df hour_start = inr hr) ->
  exists results, analyze_hours df month_hours = inr results.
Proof.
  intros Hall. induction month_hours as [|h hs [rs IH]]; cbn [analyze_hours].
  - eexists. reflexivity.
  - destruct (Hall h) as [hr Hhr]. rewrite Hhr, bind_inr, IH, bind_inr.
    eexists. reflexivity.
Qed.

(** X9. A table whose core counts all convert, with magnitudes that add up
    to at most 2^53, is analysed without error, with one result per
    enumerated hour. *)
Theorem convertible_table_is_analysed (df : DataFrame) (ts : list Z) :
  mapM py_int (map hostBillableCores df) = inr ts ->
  Zsum (map Z.abs ts) <= exact_bound ->
  exists month_hours results,
    generate_month_hours (month_start df) (month_end df) = inr month_hours
    /\ analyze df = inr results
    /\ List.length results = List.length month_hours.
Proof.
  intros Hts Hbound.
  destruct (generate_month_hours_total (month_start df) (month_end df))
    as [month_hours Hgen].
  assert (Hhours : forall hour_start, exists hr, analyze_hour df hour_start = inr hr).
  { intros hs.
    destruct (coerce_filter (is_active hs) df ts Hts) as [ts1 [Hts1 Hle1]].
    destruct (coerce_drop_duplicates _ [] ts1 Hts1) as [ts2 [Hts2 Hle2]].
    destruct (analyze_hour_succeeds df hs ts2 Hts2 ltac:(lia)) as [hr [Hhr _]].
    eauto. }
  destruct (analyze_hours_succeed df month_hours Hhours) as [results Hres].
  exists month_hours, results. split; [assumption|]. split.
  - unfold analyze. now rewrite Hgen, bind_inr.
  - apply analyze_hours_inr, Forall2_length in Hres. now symmetry.
Qed.

Lemma convertible_table_is_analysed_witness :
  exists month_hours results,
    generate_month_hours (month_start Sample.duplicates) (month_end Sample.duplicates)
    = inr month_hours
    /\ analyze Sample.duplicates = inr results
    /\ List.length results = List.length month_hours.
Proof.
  apply (convertible_table_is_analysed Sample.duplicates [3; 5; 4]).
  - vm_compute. reflexivity.
  - vm_compute. discriminate.
Defined.

(** ** Duplicates that are never read *)

Lemma drop_duplicates_seen_ext (rows : DataFrame) :
  forall s1 s2, (forall h, In h s1 <-> In h s2) ->
    drop_duplicates_seen s1 rows = drop_duplicates_seen s2 rows.
Proof.
  induction rows as [|r rows IH]; intros s1 s2 Hext; simpl; [reflexivity|].
  assert (Hb : existsb (String.eqb (hostName r)) s1
               = existsb (String.eqb (hostName r)) s2).
  { apply eq_true_iff_eq. rewrite !existsb_eqb_In. apply Hext. }
  rewrite Hb. destruct (existsb (String.eqb (hostName r)) s2).
  - now apply IH.
  - f_equal. apply IH. intros h. simpl. rewrite Hext. tauto.
Qed.

Lemma drop_duplicates_seen_app (a : DataFrame) :
  forall (seen : list string) (b : DataFrame),
    drop_duplicates_seen seen (a ++ b)
    = drop_duplicates_seen seen a
      ++ drop_duplicates_seen (map hostName a ++ seen) b.
Proof.
  induction a as [|x a IH]; intros seen b; simpl; [reflexivity|].
  destruct (existsb (String.eqb (hostName x)) seen) eqn:Hseen.
  - rewrite IH. f_equal. apply drop_duplicates_seen_ext.
    intros h. simpl. rewrite !in_app_iff. apply existsb_eqb_In in Hseen.
    split; [tauto|]. intros [<-|H]; tauto.
  - simpl. rewrite IH. do 2 f_equal. apply drop_duplicates_seen_ext.
    intros h. simpl. rewrite !in_app_iff. simpl. tauto.
Qed.

(** X11. In an hour in which an earlier row of the same host is active, a
    later row of that host is never read: the hour's outcome, result or
    exception, is the same as without the row. *)
Theorem shadowed_duplicate_never_read (before after : DataFrame)
  (r0 r : ActivityRecord) (hour_start : Z) :
  In r0 before ->
  hostName r0 = hostName r ->
  startTime r0 < hour_start + one_hour ->
  endTime r0 > hour_start ->
  analyze_hour (before ++ r :: after) hour_start
  = analyze_hour (before ++ after) hour_start.
Proof.
  intros Hr0 Hname Hs He. unfold analyze_hour, active_records.
  rewrite !filter_app. cbn [filter].
  destruct (is_active hour_start r); [|reflexivity].
  unfold drop_duplicates. rewrite !drop_duplicates_seen_app.
  cbn [drop_duplicates_seen].
  replace (existsb (String.eqb (hostName r))
             (map hostName (filter (is_active hour_start) before) ++ []))
    with true; [reflexivity|].
  symmetry. apply existsb_eqb_In. rewrite app_nil_r, <- Hname.
  apply in_map. apply filter_In. split; [assumption|].
  apply is_active_iff. lia.
Qed.

(** ** The labels of a bucket *)

Lemma one_day_hours (t : Z) : t / one_day = t / one_hour / 24.
Proof.
  unfold one_day. rewrite (Z.mul_comm 24 one_hour).
  pose proof one_hour_pos. rewrite Z.div_div by lia. reflexivity.
Qed.

Lemma labels_by_clock_hour (t t' : Z) :
  t / one_hour = t' / one_hour ->
  strftime_hour t = strftime_hour t' /\ day_of t = day_of t' /\ hour_of t = hour_of t'.
Proof.
  intros Heq. unfold strftime_hour, day_of, hour_of.
  rewrite !one_day_hours, Heq. repeat split.
Qed.

Lemma floor_to_hour (t : Z) : (t - t mod one_hour) / one_hour = t / one_hour.
Proof.
  pose proof one_hour_pos.
  pose proof (Z.div_mod t one_hour ltac:(lia)) as Hdm.
  replace (t - t mod one_hour) with (t / one_hour * one_hour) by lia.
  apply Z.div_mul. lia.
Qed.

(** X12. The labels of a result name the clock hour in which its bucket
    starts, not the bucket's start itself: [hour], [day_of_month] and
    [hour_of_day] are those of the start rounded down to the full hour, and
    [hour_of_day] is between 0 and 23. *)
Theorem bucket_labels_name_clock_hour (df : DataFrame) (hour_start : Z)
  (hr : HourResult) :
  analyze_hour df hour_start = inr hr ->
  hour hr = strftime_hour (hour_start - hour_start mod one_hour)
  /\ day_of_month hr = day_of (hour_start - hour_start mod one_hour)
  /\ hour_of_day hr = hour_of (hour_start - hour_start mod one_hour)
  /\ 0 <= hour_of_day hr < 24.
Proof.
  intros Hhr. apply analyze_hour_inr in Hhr.
  destruct Hhr as [es [total [_ [_ [_ ->]]]]]. cbn [hour day_of_month hour_of_day].
  destruct (labels_by_clock_hour (hour_start - hour_start mod one_hour) hour_start
              (floor_to_hour hour_start)) as [-> [-> ->]].
  repeat split; try reflexivity; unfold hour_of;
    pose proof (Z.mod_pos_bound (hour_start / one_hour) 24 ltac:(lia)); lia.
Qed.

Lemma Forall2_nth_error_r {A B : Type} (P : A -> B -> Prop) (l : list A) (l' : list B) :
  Forall2 P l l' ->
  forall i b, nth_error l' i = Some b -> exists a, nth_error l i = Some a /\ P a b.
Proof.
  induction 1 as [|a b' l l' HP _ IH]; intros i b Hnth.
  - destruct i; discriminate.
  - destruct i as [|i]; simpl in *.
    + injection Hnth as <-. eauto.
    + now apply IH.
Qed.

Lemma hour_of_step (t : Z) : hour_of (t + one_hour) = (hour_of t + 1) mod 24.
Proof.
  unfold hour_of. pose proof one_hour_pos.
  replace (t + one_hour) with (t + 1 * one_hour) by lia.
  rewrite Z.div_add by lia. now rewrite Z.add_mod_idemp_l by lia.
Qed.

(** X13. Consecutive results are one clock hour apart: the [hour_of_day]
    of a result is that of its predecessor plus one, modulo 24. *)
Theorem consecutive_results_one_hour_apart (df : DataFrame)
  (results : list HourResult) (i : nat) (a b : HourResult) :
  analyze df = inr results ->
  nth_error results i = Some a ->
  nth_error results (S i) = Some b ->
  hour_of_day b = (hour_of_day a + 1) mod 24.
Proof.
  intros Hres Ha Hb. apply analyze_inr in Hres.
  destruct Hres as [month_hours [Hgen Hall]].
  destruct (Forall2_nth_error_r _ _ _ Hall _ _ Ha) as [ha [Hha Hhra]].
  destruct (Forall2_nth_error_r _ _ _ Hall _ _ Hb) as [hb [Hhb Hhrb]].
  destruct (generated_hours_nth _ _ _ _ Hgen Hha) as [s [Hs ->]].
  destruct (generated_hours_nth _ _ _ _ Hgen Hhb) as [s' [Hs' ->]].
  assert (s' = s) by congruence. subst s'.
  apply analyze_hour_inr in Hhra. destruct Hhra as [? [? [_ [_ [_ ->]]]]].
  apply analyze_hour_inr in Hhrb. destruct Hhrb as [? [? [_ [_ [_ ->]]]]].
  cbn [hour_of_day]. rewrite <- nth_bucket_shift, <- hour_of_step.
  f_equal. unfold nth_bucket. lia.
Qed.

Lemma consecutive_results_one_hour_apart_witness :
  hour_of_day (mkHourResult "2024-01-01 01:00:00 UTC" 1 1 1 4
                 [mkDetail "h1" (PyFloat Sample.f4)])
  = (hour_of_day (mkHourResult "2024-01-01 00:00:00 UTC" 1 0 2 6
                    [mkDetail "h1" (PyFloat Sample.f4);
                     mkDetail "h2" (PyFloat Sample.f2)]) + 1) mod 24.
Proof.
  apply (consecutive_results_one_hour_apart Sample.scenario
           Sample.scenario_hours 0).
  - vm_compute. reflexivity.
  - reflexivity.
  - reflexivity.
Defined.

(** The first bucket of the end-to-end scenario starts at 00:30 and is
    labelled 00:00:00. *)
Example half_past_label :
  (Sample.jan1 + Sample.minutes 30) mod one_hour = Sample.minutes 30
  /\ strftime_hour (Sample.jan1 + Sample.minutes 30) = "2024-01-01 00:00:00 UTC"%string
  /\ strftime_hour Sample.jan1 = "2024-01-01 00:00:00 UTC"%string.
Proof. vm_compute. repeat split. Qed.

Lemma bucket_labels_name_clock_hour_witness :
  hour (mkHourResult "2024-01-01 00:00:00 UTC" 1 0 2 6
          [mkDetail "h1" (PyFloat Sample.f4); mkDetail "h2" (PyFloat Sample.f2)])
  = strftime_hour (Sample.jan1 + Sample.minutes 30
                   - (Sample.jan1 + Sample.minutes 30) mod one_hour)
  /\ day_of_month (mkHourResult "2024-01-01 00:00:00 UTC" 1 0 2 6
          [mkDetail "h1" (PyFloat Sample.f4); mkDetail "h2" (PyFloat Sample.f2)])
     = day_of (Sample.jan1 + Sample.minutes 30
               - (Sample.jan1 + Sample.minutes 30) mod one_hour)
  /\ hour_of_day (mkHourResult "2024-01-01 00:00:00 UTC" 1 0 2 6
          [mkDetail "h1" (PyFloat Sample.f4); mkDetail "h2" (PyFloat Sample.f2)])
     = hour_of (Sample.jan1 + Sample.minutes 30
                - (Sample.jan1 + Sample.minutes 30) mod one_hour)
  /\ 0 <= hour_of_day (mkHourResult "2024-01-01 00:00:00 UTC" 1 0 2 6
          [mkDetail "h1" (PyFloat Sample.f4); mkDetail "h2" (PyFloat Sample.f2)])
     < 24.
Proof.
  apply (bucket_labels_name_clock_hour Sample.scenario
           (Sample.jan1 + Sample.minutes 30)).
  vm_compute. reflexivity.
Defined.

Lemma every_record_reported_witness :
  exists row,
    In row (detailed_rows
              Sample.scenario_hours)
    /\ d_hostname row
       = hostName (mkRecord "h2" (Sample.jan1 + Sample.minutes 60)
                     (Sample.jan1 + Sample.minutes 90) (PyInt 2)).
Proof.
  apply (every_record_reported Sample.scenario).
  - vm_compute. reflexivity.
  - right. now left.
  - vm_compute. reflexivity.
Defined.

Lemma degenerate_record_single_bucket_witness :
  (0 = 0)%nat /\ 0 < endTime Sample.instant
  /\ startTime Sample.instant < 0 + one_hour.
Proof.
  apply (degenerate_record_single_bucket Sample.with_instant Sample.instant
           [0; one_hour] 0 0 0 0).
  - vm_compute. discriminate.
  - reflexivity.
  - reflexivity.
  - reflexivity.
  - vm_compute. right. now left.
  - vm_compute. right. now left.
Defined.

Lemma bad_core_count_aborts_witness :
  (exists e', snd (analyze_vm_activity Sample.nan_only "./data.tsv" empty_world)
              = inl e')
  /\ files (fst (analyze_vm_activity Sample.nan_only "./data.tsv" empty_world))
     = files empty_world.
Proof.
  apply (bad_core_count_aborts Sample.nan_only "./data.tsv" empty_world
           [Sample.nan_row] [0] 0 Sample.nan_row ValueError).
  - reflexivity.
  - reflexivity.
  - now left.
  - vm_compute. now left.
  - reflexivity.
Defined.

Lemma shadowed_duplicate_never_read_witness :
  analyze_hour ([Sample.h_first] ++ Sample.nan_row :: [Sample.g_row]) 0
  = analyze_hour ([Sample.h_first] ++ [Sample.g_row]) 0.
Proof.
  apply (shadowed_duplicate_never_read [Sample.h_first] [Sample.g_row]
           Sample.h_first Sample.nan_row 0).
  - now left.
  - reflexivity.
  - reflexivity.
  - reflexivity.
Defined.

Lemma div_le_iff (a h i : Z) : 0 < h -> (a / h <= i <-> a < (i + 1) * h).
Proof.
  intros Hh. pose proof (Z.div_mod a h ltac:(lia)) as Hdm.
  pose proof (Z.mod_pos_bound a h Hh) as Hm. split; intros H; nia.
Qed.

Lemma lt_ceil_iff (b h i : Z) : 0 < h -> (i < (b + h - 1) / h <-> i * h < b).
Proof.
  intros Hh. pose proof (Z.div_mod (b + h - 1) h ltac:(lia)) as Hdm.
  pose proof (Z.mod_pos_bound (b + h - 1) h Hh) as Hm. split; intros H; nia.
Qed.

(** X14. A record of the table is selected in the bucket number [i] of a
    window that starts at [s] exactly when [i] lies between the number of
    whole hours from [s] to the record's start and the number of hours,
    rounded up, from [s] to the record's end (the latter excluded). *)
Theorem active_bucket_range (df : DataFrame) (r : ActivityRecord) (s : Z) (i : nat) :
  In r df ->
  In r (active_records df (nth_bucket s i))
  <-> (startTime r - s) / one_hour <= Z.of_nat i
      /\ Z.of_nat i < (endTime r - s + one_hour - 1) / one_hour.
Proof.
  intros Hr. rewrite active_records_iff. unfold nth_bucket.
  pose proof one_hour_pos as Hh.
  rewrite (div_le_iff _ one_hour _ Hh), (lt_ceil_iff _ one_hour _ Hh).
  split; intros H; repeat split; try assumption; lia.
Qed.

Lemma active_bucket_range_witness :
  In Sample.h_first (active_records Sample.duplicates (nth_bucket 0 1))
  <-> (startTime Sample.h_first - 0) / one_hour <= Z.of_nat 1
      /\ Z.of_nat 1 < (endTime Sample.h_first - 0 + one_hour - 1) / one_hour.
Proof.
  apply (active_bucket_range Sample.duplicates Sample.h_first 0 1). now left.
Defined.

Lemma report_row_counts_witness :
  exists month_hours,
    generate_month_hours (month_start Sample.scenario) (month_end Sample.scenario)
    = inr month_hours
    /\ map s_hour (summary_rows
                     Sample.scenario_hours)
       = map strftime_hour month_hours
    /\ map s_hour_of_day (summary_rows
                     Sample.scenario_hours)
       = map hour_of month_hours
    /\ map s_day_of_month (summary_rows
                     Sample.scenario_hours)
       = map day_of month_hours
    /\ Z.of_nat (List.length (detailed_rows
                     Sample.scenario_hours))
       = Zsum (map s_total_hosts (summary_rows
                     Sample.scenario_hours)).
Proof.
  apply (report_row_counts Sample.scenario). vm_compute. reflexivity.
Defined.
